(** * sleep_absolute: a shallow embedding of the four timer backends

    Python floats holding POSIX timestamps are modelled by their exact
    rational value (type [Q]).  [math.modf], [int] and [round] are exact on
    floats and are written out on [Q]; the products [fractional * 1e9] and
    [frac * 10**7] are taken exactly. *)

From Stdlib Require Import ZArith QArith Qround Lia Lqa.
From stdpp Require Import base gmap strings list.

Open Scope Z_scope.

(* ------------------------------------------------------------------ *)
(** ** Python numeric primitives on exact timestamps *)

(** [int(x)] on a float: truncation toward zero. *)
Definition py_trunc (x : Q) : Z := Z.quot (Qnum x) (Zpos (Qden x)).

(** [math.modf(x)]: (fractional part, integral part), both with the sign of
    [x]. *)
Definition py_modf (x : Q) : Q * Z :=
  (x - inject_Z (py_trunc x), py_trunc x)%Q.

(** [round(x)] with no digit argument: round half to even. *)
Definition py_round (x : Q) : Z :=
  let f := Qfloor x in
  match Qcompare (x - inject_Z f) (1 # 2) with
  | Lt => f
  | Gt => f + 1
  | Eq => if Z.even f then f else f + 1
  end.

(* ------------------------------------------------------------------ *)
(** ** Deadline converter (_timer_create._timestamp_to_spec, and the same
    lines inlined in _linux._program_timerfd and _darwin._program_timer) *)

Record Timespec := { tv_sec : Z; tv_nsec : Z }.
Record Itimerspec := { it_interval : Timespec; it_value : Timespec }.

Definition NS_PER_SEC : Z := 1000000000.

(** The lines shared by the three copies: split, round to nanoseconds,
    carry one second. *)
Definition split_deadline (timestamp : Q) : Z * Z :=
  let '(fractional, integral) := py_modf timestamp in
  let nanoseconds := py_round (fractional * inject_Z NS_PER_SEC) in
  let seconds := integral in
  if NS_PER_SEC <=? nanoseconds
  then (seconds + 1, nanoseconds - NS_PER_SEC)
  else (seconds, nanoseconds).

Definition timestamp_to_spec (timestamp : Q) : Itimerspec :=
  let '(seconds, nanoseconds) := split_deadline timestamp in
  {| it_interval := {| tv_sec := 0; tv_nsec := 0 |};
     it_value := {| tv_sec := seconds; tv_nsec := nanoseconds |} |}.

(* ------------------------------------------------------------------ *)
(** ** Windows tick conversion (_windows._unix_to_windows_ticks) *)

Definition WINDOWS_TICK : Z := 10000000.
Definition EPOCH_DIFFERENCE_SECONDS : Z := 11644473600.

(** The source unpacks [whole, frac = math.modf(timestamp)].  [math.modf]
    returns the pair (fractional part, integral part), so [whole] holds the
    fractional part (a float in (-1, 1)) and [frac] the integral part. *)
Definition unix_to_windows_ticks (timestamp : Q) : Z :=
  let '(whole, frac) := py_modf timestamp in
  let fractional_ticks := py_round (inject_Z frac * inject_Z WINDOWS_TICK) in
  let whole_ticks := py_trunc whole * WINDOWS_TICK in
  let '(whole_ticks, fractional_ticks) :=
    if WINDOWS_TICK <=? fractional_ticks
    then (whole_ticks + WINDOWS_TICK, fractional_ticks - WINDOWS_TICK)
    else (whole_ticks, fractional_ticks) in
  whole_ticks + fractional_ticks + EPOCH_DIFFERENCE_SECONDS * WINDOWS_TICK.

(* ------------------------------------------------------------------ *)
(** ** datetime, exceptions and the native calls *)

(** A [datetime.datetime]: its wall-clock reading (seconds from
    1970-01-01T00:00 of that wall clock) and, when aware, its UTC offset in
    seconds; [tzinfo = None] is a naive datetime. *)
Record datetime := { wall : Q; tzinfo : option Q }.

(** The exceptions raised on the modelled paths. *)
Inductive PyExc :=
| RuntimeError | OSError | NotImplementedError | InvalidStateError | TypeError
(** reading a freed [py_object] cell through a stale pointer: no defined
    outcome *)
| UndefinedBehaviour.

(** Native and event-loop calls, recorded in the order the code makes them. *)
Inductive NativeCall :=
(* _linux *)
| TimerfdCreate (fd : Z) | TimerfdSettime (fd : Z) (spec : Itimerspec)
| AddReader (fd : Z) | RemoveReader (fd : Z) | OsClose (fd : Z)
(* _windows *)
| CreateWaitableTimerW (h : Z) | SetWaitableTimer (h : Z) (due : Z)
| WaitForHandle (h : Z) | CloseHandle (h : Z)
(* _timer_create *)
| ContextsInsert (key : Z) | SetClosed (key : Z) | ContextsPop (key : Z)
| TimerCreate (key tid : Z) | TimerSettime (tid : Z) (spec : Itimerspec)
| TimerDelete (key tid : Z)
(* _darwin *)
| GetGlobalQueue | DispatchSourceCreate (src : Z)
| DispatchSetContext (src ptr : Z) | DispatchSetHandlers (src : Z)
| DispatchSetTimer (src : Z) (ts : Timespec) | DispatchResume (src : Z)
| DispatchSourceCancel (src : Z) | DispatchRelease (src : Z)
| DropContext (ptr : Z)
(* asyncio *)
| CreateFuture | CallSoonThreadsafe.

(** The answers of the event loop and of the operating system to one call
    of [wait_until]. *)
Record Env := {
  local_utcoffset : Q -> Q;          (* UTC offset of local time at a wall reading *)
  loop_add_reader : bool;            (* getattr(loop, "add_reader", None) is not None *)
  loop_remove_reader : bool;
  add_reader_exc : option PyExc;     (* what loop.add_reader raises, if anything *)
  loop_proactor : bool;              (* getattr(loop, "_proactor", None) is not None *)
  wait_for_handle_exc : option PyExc;
  timerfd_create_ret : Z;            (* -1 on failure *)
  timerfd_settime_ret : Z;           (* 0 on success *)
  create_waitable_ret : Z;           (* NULL (0) on failure *)
  set_waitable_ret : bool;
  context_id : Z;                    (* id() of the new _TimerContext *)
  timer_create_ret : Z;              (* 0 on success *)
  timer_create_id : Z;               (* the timer_t written on success *)
  timer_settime_ret : Z;
  global_queue_ret : Z;              (* NULL (0) on failure *)
  dispatch_source_create_ret : Z;    (* NULL (0) on failure *)
  context_ptr : Z                    (* address of the py_object cell *)
}.

(** [datetime.timestamp()]: an aware datetime subtracts its offset, a naive
    one is read as local time. *)
Definition py_timestamp (env : Env) (dt : datetime) : Q :=
  match tzinfo dt with
  | Some off => (wall dt - off)%Q
  | None => (wall dt - local_utcoffset env (wall dt))%Q
  end.

(* ------------------------------------------------------------------ *)
(** ** A small exception-and-state monad for the Python code *)

Definition PyM (S A : Type) : Type := S -> (PyExc + A) * S.

Global Instance PyM_ret {S} : MRet (PyM S) := fun A x s => (inr x, s).
Global Instance PyM_bind {S} : MBind (PyM S) := fun A B f m s =>
  match m s with
  | (inl e, s') => (inl e, s')
  | (inr x, s') => f x s'
  end.

Definition raise {S A} (e : PyExc) : PyM S A := fun s => (inl e, s).
Definition get {S} : PyM S S := fun s => (inr s, s).
Definition modify {S} (f : S -> S) : PyM S unit := fun s => (inr tt, f s).

(** [try: m  except Exception: h; raise] *)
Definition try_reraise {S A} (m : PyM S A) (h : PyM S unit) : PyM S A := fun s =>
  match m s with
  | (inl e, s') => match h s' with
                   | (inl e', s'') => (inl e', s'')
                   | (inr _, s'') => (inl e, s'')
                   end
  | ok => ok
  end.

(** [try: m  finally: f] *)
Definition try_finally {S A} (m : PyM S A) (f : PyM S unit) : PyM S A := fun s =>
  let '(r, s') := m s in
  match f s' with
  | (inl e', s'') => (inl e', s'')
  | (inr _, s'') => (r, s'')
  end.

Definition raise_opt {S} (o : option PyExc) : PyM S unit :=
  match o with Some e => raise e | None => mret tt end.

Class Traced (S : Type) := add_call : NativeCall -> S -> S.
Definition emit {S} `{Traced S} (c : NativeCall) : PyM S unit :=
  modify (add_call c).

(** The asyncio future states. *)
Inductive FutState := Pending | Finished | Cancelled.
Definition fut_done (f : FutState) : bool :=
  match f with Pending => false | _ => true end.

(** What [wait_until] hands back. *)
Inductive FutureObj := LoopFuture (fd : Z) | HandleWaitFuture (h : Z)
| ContextFuture (key : Z) | DispatchFuture (src : Z).

(* ------------------------------------------------------------------ *)
(** ** _linux: timerfd *)

Module Linux.

(** The calls traced, the future of this wait and the [nonlocal closed]
    flag of its closure. [callbacks] counts the done-callbacks added to the
    future, [ready] the done-callbacks the loop has scheduled and not run. *)
Record World := {
  trace : list NativeCall;
  fut : FutState;
  resolutions : nat;
  closed : bool;
  callbacks : nat;
  ready : nat
}.

Global Instance traced : Traced World := fun c w =>
  {| trace := trace w ++ [c]; fut := fut w; resolutions := resolutions w;
     closed := closed w; callbacks := callbacks w; ready := ready w |}.

Definition init : World :=
  {| trace := []; fut := Pending; resolutions := 0; closed := false;
     callbacks := 0; ready := 0 |}.

Definition set_closed (w : World) : World :=
  {| trace := trace w; fut := fut w; resolutions := resolutions w;
     closed := true; callbacks := callbacks w; ready := ready w |}.

(** [future.set_result(None)]: [InvalidStateError] on a done future;
    otherwise the loop schedules the done-callbacks. *)
Definition set_result : PyM World unit := fun w =>
  if fut_done (fut w) then (inl InvalidStateError, w)
  else (inr tt, {| trace := trace w; fut := Finished;
                   resolutions := S (resolutions w); closed := closed w;
                   callbacks := callbacks w;
                   ready := ready w + callbacks w |}).

(** [future.cancel()] *)
Definition cancel : PyM World bool := fun w =>
  if fut_done (fut w) then (inr false, w)
  else (inr true, {| trace := trace w; fut := Cancelled;
                     resolutions := resolutions w; closed := closed w;
                     callbacks := callbacks w;
                     ready := ready w + callbacks w |}).

(** [future.add_done_callback(cb)] on a pending future. *)
Definition add_done_callback : PyM World unit := modify (fun w =>
  {| trace := trace w; fut := fut w; resolutions := resolutions w;
     closed := closed w; callbacks := S (callbacks w);
     ready := if fut_done (fut w) then S (ready w) else ready w |}).

Definition create_timerfd (env : Env) : PyM World Z :=
  let fd := timerfd_create_ret env in
  if fd =? -1 then raise OSError
  else emit (TimerfdCreate fd);; mret fd.

Definition program_timerfd (env : Env) (fd : Z) (target_time : datetime)
  : PyM World unit :=
  let timestamp := py_timestamp env target_time in
  let '(seconds, nanoseconds) := split_deadline timestamp in
  let new_value := {| it_interval := {| tv_sec := 0; tv_nsec := 0 |};
                      it_value := {| tv_sec := seconds; tv_nsec := nanoseconds |} |} in
  emit (TimerfdSettime fd new_value);;
  if negb (timerfd_settime_ret env =? 0) then raise OSError else mret tt.

Definition close_fd (fd : Z) : PyM World unit :=
  w ← get;
  if closed w then mret tt
  else modify set_closed;;
       try_finally (emit (RemoveReader fd)) (emit (OsClose fd)).

Definition on_ready (fd : Z) : PyM World unit :=
  w ← get;
  (if negb (fut_done (fut w)) then set_result else mret tt);;
  close_fd fd.

Definition cleanup_callback (fd : Z) : PyM World unit := close_fd fd.

Definition wait_until (env : Env) (target_time : datetime) : PyM World FutureObj :=
  if negb (loop_add_reader env && loop_remove_reader env)
  then raise RuntimeError
  else
  fd ← create_timerfd env;
  try_reraise (program_timerfd env fd target_time) (emit (OsClose fd));;
  emit CreateFuture;;
  try_reraise (emit (AddReader fd);; raise_opt (add_reader_exc env))
              (close_fd fd);;
  add_done_callback;;
  mret (LoopFuture fd).

(** What can happen to a returned wait: the descriptor becomes readable and
    the loop runs [_on_ready] (also a duplicate, simulated readiness), the
    caller cancels the future, or the loop runs a scheduled done-callback. *)
Inductive Event := Ready | Cancel | RunCallback.

Definition step (fd : Z) (ev : Event) : PyM World unit :=
  match ev with
  | Ready => on_ready fd
  | Cancel => cancel;; mret tt
  | RunCallback =>
      w ← get;
      match ready w with
      | O => mret tt
      | S n => modify (fun w => {| trace := trace w; fut := fut w;
                                   resolutions := resolutions w;
                                   closed := closed w;
                                   callbacks := callbacks w; ready := n |});;
               cleanup_callback fd
      end
  end.

Fixpoint run (fd : Z) (evs : list Event) : PyM World unit :=
  match evs with
  | [] => mret tt
  | ev :: evs' => step fd ev;; run fd evs'
  end.

(** The worlds of a wait on descriptor [fd]: after [wait_until] returned
    its future, then after any sequence of events (whatever they return). *)
Inductive reachable (fd : Z) : World -> Prop :=
| reach_start env dt w :
    wait_until env dt init = (inr (LoopFuture fd), w) -> reachable fd w
| reach_step w ev r w' :
    reachable fd w -> step fd ev w = (r, w') -> reachable fd w'.

End Linux.

(* ------------------------------------------------------------------ *)
(** ** _windows: waitable timers *)

Module Windows.

Global Instance traced : Traced (list NativeCall) := fun c tr => tr ++ [c].

Definition wait_until (env : Env) (target_time : datetime)
  : PyM (list NativeCall) FutureObj :=
  if negb (loop_proactor env) then raise RuntimeError
  else
  let due_time_value := unix_to_windows_ticks (py_timestamp env target_time) in
  let handle := create_waitable_ret env in
  if handle =? 0 then raise OSError
  else
  emit (CreateWaitableTimerW handle);;
  emit (SetWaitableTimer handle due_time_value);;
  if negb (set_waitable_ret env)
  then emit (CloseHandle handle);; raise OSError
  else
  emit (WaitForHandle handle);;
  raise_opt (wait_for_handle_exc env);;
  mret (HandleWaitFuture handle).

End Windows.

(* ------------------------------------------------------------------ *)
(** ** _timer_create: POSIX timers with SIGEV_THREAD notification *)

Module TimerCreate.

(** A [_TimerContext]: its future, the successful [set_result] calls on it,
    [_closed], [timer_id] (0 for an unset timer_t) and the number of
    done-callbacks on the future. *)
Record Ctx := {
  future : FutState;
  resolutions : nat;
  closed : bool;
  timer_id : Z;
  callbacks : nat
}.

(** Callbacks the loop has scheduled: [self._resolve] posted from a
    notification thread, and the [_on_done] done-callback. *)
Inductive Item := Resolve (key : Z) | OnDone (key : Z).

(** A notification thread in flight: it has read the context from
    [_contexts], or it has also passed the [_closed] check of [_on_timer]. *)
Inductive Thread := Looked (key : Z) | Checked (key : Z).

Record World := {
  trace : list NativeCall;
  contexts : gset Z;         (* keys of the module-level _contexts dict *)
  objs : gmap Z Ctx;         (* the _TimerContext objects, by key = id *)
  queue : list Item;         (* the loop's ready queue, FIFO *)
  threads : list Thread
}.

Definition mk (tr : list NativeCall) (cs : gset Z) (os : gmap Z Ctx)
  (q : list Item) (ts : list Thread) : World :=
  {| trace := tr; contexts := cs; objs := os; queue := q; threads := ts |}.

Global Instance traced : Traced World := fun c w =>
  mk (trace w ++ [c]) (contexts w) (objs w) (queue w) (threads w).

Definition empty : World := mk [] ∅ ∅ [] [].

Definition upd_ctx (key : Z) (f : Ctx -> Ctx) : PyM World unit := modify (fun w =>
  mk (trace w) (contexts w) (alter f key (objs w)) (queue w) (threads w)).

Definition call_soon (it : Item) : PyM World unit := modify (fun w =>
  mk (trace w) (contexts w) (objs w) (queue w ++ [it]) (threads w)).

(** Runs [k] on the context object with this key. *)
Definition with_ctx (key : Z) (k : Ctx -> PyM World unit) : PyM World unit :=
  w ← get;
  match objs w !! key with
  | Some c => k c
  | None => mret tt
  end.

Definition set_closed_field (c : Ctx) : Ctx :=
  {| future := future c; resolutions := resolutions c; closed := true;
     timer_id := timer_id c; callbacks := callbacks c |}.

Definition set_timer_id (t : Z) (c : Ctx) : Ctx :=
  {| future := future c; resolutions := resolutions c; closed := closed c;
     timer_id := t; callbacks := callbacks c |}.

(** The future's result is set (counted in [resolutions]), or it is
    cancelled. *)
Definition finish (c : Ctx) : Ctx :=
  {| future := Finished; resolutions := S (resolutions c);
     closed := closed c; timer_id := timer_id c; callbacks := callbacks c |}.

Definition cancel_future (c : Ctx) : Ctx :=
  {| future := Cancelled; resolutions := resolutions c;
     closed := closed c; timer_id := timer_id c; callbacks := callbacks c |}.

Definition add_callback (c : Ctx) : Ctx :=
  {| future := future c; resolutions := resolutions c; closed := closed c;
     timer_id := timer_id c; callbacks := S (callbacks c) |}.

(** [_TimerContext.cleanup] *)
Definition cleanup (key : Z) : PyM World unit :=
  with_ctx key (fun c =>
  if closed c then mret tt
  else
  upd_ctx key set_closed_field;; emit (SetClosed key);;
  try_finally
    (if negb (timer_id c =? 0) then emit (TimerDelete key (timer_id c)) else mret tt)
    (modify (fun w => mk (trace w) (contexts w ∖ {[key]}) (objs w) (queue w) (threads w));;
     emit (ContextsPop key);;
     upd_ctx key (set_timer_id 0))).

(** The loop schedules each done-callback of a future that becomes done. *)
Definition schedule_callbacks (key : Z) (c : Ctx) : PyM World unit := modify (fun w =>
  mk (trace w) (contexts w) (objs w)
     (queue w ++ replicate (callbacks c) (OnDone key)) (threads w)).

(** [future.set_result(None)] on the context's future. *)
Definition set_result (key : Z) : PyM World unit :=
  with_ctx key (fun c =>
  if fut_done (future c) then raise InvalidStateError
  else upd_ctx key finish;; schedule_callbacks key c).

(** [future.cancel()] *)
Definition cancel (key : Z) : PyM World unit :=
  with_ctx key (fun c =>
  if fut_done (future c) then mret tt
  else upd_ctx key cancel_future;; schedule_callbacks key c).

(** [_TimerContext._resolve], run on the loop thread. *)
Definition resolve (key : Z) : PyM World unit :=
  with_ctx key (fun c =>
  if closed c then mret tt
  else
  (if negb (fut_done (future c)) then set_result key else mret tt);;
  cleanup key).

(** [_TimerContext._on_timer], on the notification thread: the [_closed]
    check, then [loop.call_soon_threadsafe(self._resolve)]. *)
Definition on_timer_check (key : Z) : PyM World bool :=
  w ← get;
  match objs w !! key with
  | Some c => mret (negb (closed c))
  | None => mret false
  end.

Definition on_timer (key : Z) : PyM World unit :=
  proceed ← on_timer_check key;
  if (proceed : bool) then emit CallSoonThreadsafe;; call_soon (Resolve key) else mret tt.

(** The first statements of [_timer_callback]: [key = int(sigval.sival_ptr)]
    ([int(None)] for a NULL pointer raises [TypeError]) and
    [context = _contexts.get(key)]; a found context is handed to the
    thread, which goes on with [context._on_timer()]. *)
Definition timer_callback_lookup (sival_ptr : Z) : PyM World (option Z) :=
  if sival_ptr =? 0 then raise TypeError
  else
  w ← get;
  if decide (sival_ptr ∈ contexts w) then mret (Some sival_ptr) else mret None.

(** [_TimerContext.start] *)
Definition start (env : Env) (key : Z) (target_time : datetime) : PyM World unit :=
  let timer_id := timer_create_id env in
  if negb (timer_create_ret env =? 0) then raise OSError
  else
  emit (TimerCreate key timer_id);;
  upd_ctx key (set_timer_id timer_id);;
  let spec := timestamp_to_spec (py_timestamp env target_time) in
  emit (TimerSettime timer_id spec);;
  if negb (timer_settime_ret env =? 0)
  then cleanup key;; raise OSError
  else mret tt.

Definition new_ctx : Ctx :=
  {| future := Pending; resolutions := 0; closed := false; timer_id := 0;
     callbacks := 0 |}.

Definition wait_until (env : Env) (target_time : datetime) : PyM World FutureObj :=
  emit CreateFuture;;
  let key := context_id env in
  modify (fun w => mk (trace w) ({[key]} ∪ contexts w) (<[key := new_ctx]> (objs w))
                      (queue w) (threads w));;
  emit (ContextsInsert key);;
  try_reraise (start env key target_time) (cleanup key);;
  upd_ctx key add_callback;;
  mret (ContextFuture key).

(** Interleaved steps after [wait_until] returned: a timer notification
    arrives with a token (one-shot expiry, or a simulated duplicate or stray
    one), an in-flight notification thread runs its [_closed] check or its
    [call_soon_threadsafe], the caller cancels a future, or the loop runs the
    next ready callback. *)
Inductive Event :=
| Notify (sival_ptr : Z) | ThreadCheck (i : nat) | ThreadPost (i : nat)
| UserCancel (key : Z) | LoopRun.

Definition set_threads (f : list Thread -> list Thread) : PyM World unit :=
  modify (fun w => mk (trace w) (contexts w) (objs w) (queue w) (f (threads w))).

Definition step (ev : Event) : PyM World unit :=
  match ev with
  | Notify p =>
      found ← timer_callback_lookup p;
      match found with
      | Some key => set_threads (fun ts => ts ++ [Looked key])
      | None => mret tt
      end
  | ThreadCheck i =>
      w ← get;
      match threads w !! i with
      | Some (Looked key) =>
          proceed ← on_timer_check key;
          set_threads (fun ts => if (proceed : bool) then <[i := Checked key]> ts else delete i ts)
      | _ => mret tt
      end
  | ThreadPost i =>
      w ← get;
      match threads w !! i with
      | Some (Checked key) =>
          set_threads (delete i);; emit CallSoonThreadsafe;; call_soon (Resolve key)
      | _ => mret tt
      end
  | UserCancel key => cancel key
  | LoopRun =>
      w ← get;
      match queue w with
      | [] => mret tt
      | it :: q =>
          modify (fun w => mk (trace w) (contexts w) (objs w) q (threads w));;
          match it with
          | Resolve key => resolve key
          | OnDone key => cleanup key
          end
      end
  end.

Fixpoint run (evs : list Event) : PyM World unit :=
  match evs with
  | [] => mret tt
  | ev :: evs' => step ev;; run evs'
  end.

(** The worlds of the module: from no context, any interleaving of calls of
    [wait_until] (whatever they return) and of events.  [id()] gives a new
    context a key no earlier context has, and a SIGEV_THREAD [timer_t]
    written by a successful [timer_create] is never NULL. *)
Inductive reachable : World -> Prop :=
| reach_empty : reachable empty
| reach_wait env dt w r w' :
    reachable w -> objs w !! context_id env = None -> timer_create_id env <> 0 ->
    wait_until env dt w = (r, w') -> reachable w'
| reach_step w ev r w' :
    reachable w -> step ev w = (r, w') -> reachable w'.

End TimerCreate.

(* ------------------------------------------------------------------ *)
(** ** _timer_create._load_timer_library *)

(** What the loader ends with: the library of a candidate, an exception
    raised by [CDLL] (an [OSError] re-raised as [last_error] after the loop,
    or another exception let through at once), or the final
    [OSError("Failed to locate ...")]. *)
Inductive LoadOutcome :=
| Loaded (name : string)
| LoadRaised (e : PyExc) (candidate : string)
| LoadFallbackError.

(** The [for candidate in candidates] loop: [cdll c] is what
    [ctypes.CDLL(c, use_errno=True)] raises, if anything; [last_error]
    names the candidate whose [OSError] was kept. *)
Fixpoint try_candidates (cdll : string -> option PyExc) (candidates : list string)
  (last_error : option string) : LoadOutcome :=
  match candidates with
  | [] => match last_error with
          | Some failed => LoadRaised OSError failed
          | None => LoadFallbackError
          end
  | candidate :: rest =>
      match cdll candidate with
      | None => Loaded candidate
      | Some OSError => try_candidates cdll rest (Some candidate)
      | Some e => LoadRaised e candidate
      end
  end.

(** [candidates]: the names [ctypes.util.find_library] gives for "rt" and
    "c" (skipped when [None] or empty), then the three fixed names. *)
Definition timer_library_candidates (find_library : string -> option string)
  : list string :=
  flat_map (fun library => match find_library library with
                           | Some name => if String.eqb name "" then [] else [name]
                           | None => []
                           end) ["rt"; "c"]%string
  ++ ["librt.so.1"; "librt.so"; "libc.so.6"]%string.

Definition load_timer_library (find_library : string -> option string)
  (cdll : string -> option PyExc) : LoadOutcome :=
  try_candidates cdll (timer_library_candidates find_library) None.

(* ------------------------------------------------------------------ *)
(** ** _darwin: Grand Central Dispatch timer sources *)

Module Darwin.

(** The [_TimerContext]: [_cancelled], [timer] ([None] once released), and
    whether the [py_object] cell behind the context pointer is still held
    ([_py_obj_ref]/[_py_obj_ptr] not reset to [None]). *)
Record Ctx := { cancelled : bool; timer : option Z; py_obj : bool }.

(** Loop callbacks: [_set_result] posted by the event handler, and the
    [_cleanup] done-callback. *)
Inductive Item := SetResultCb | CleanupCb.

(** One wait: the calls traced, its future, its context with the address
    [ptr] of the context cell, the loop's ready queue, and what libdispatch
    knows of the source: cancellation requested, cancel handler run. *)
Record World := {
  trace : list NativeCall;
  fut : FutState;
  resolutions : nat;
  callbacks : nat;
  queue : list Item;
  ctx : option Ctx;
  ptr : Z;
  src_cancel_requested : bool;
  cancel_handler_ran : bool
}.

Definition mk tr f r cb q c p scr chr : World :=
  {| trace := tr; fut := f; resolutions := r; callbacks := cb; queue := q;
     ctx := c; ptr := p; src_cancel_requested := scr; cancel_handler_ran := chr |}.

Global Instance traced : Traced World := fun c w =>
  mk (trace w ++ [c]) (fut w) (resolutions w) (callbacks w) (queue w) (ctx w)
     (ptr w) (src_cancel_requested w) (cancel_handler_ran w).

Definition init : World := mk [] Pending 0 0 [] None 0 false false.

Definition set_ctx (c : Ctx) : PyM World unit := modify (fun w =>
  mk (trace w) (fut w) (resolutions w) (callbacks w) (queue w) (Some c)
     (ptr w) (src_cancel_requested w) (cancel_handler_ran w)).

Definition call_soon (it : Item) : PyM World unit := modify (fun w =>
  mk (trace w) (fut w) (resolutions w) (callbacks w) (queue w ++ [it]) (ctx w)
     (ptr w) (src_cancel_requested w) (cancel_handler_ran w)).

(** [_dispatch_source_cancel(timer)]: libdispatch records the request. *)
Definition dispatch_source_cancel (src : Z) : PyM World unit :=
  emit (DispatchSourceCancel src);;
  modify (fun w => mk (trace w) (fut w) (resolutions w) (callbacks w) (queue w)
                      (ctx w) (ptr w) true (cancel_handler_ran w)).

(** [_TimerContext.cancel_timer] *)
Definition cancel_timer : PyM World unit :=
  w ← get;
  match ctx w with
  | None => mret tt
  | Some c =>
      match timer c with
      | None => mret tt
      | Some src =>
          if cancelled c then mret tt
          else set_ctx {| cancelled := true; timer := timer c; py_obj := py_obj c |};;
               dispatch_source_cancel src
      end
  end.

(** [_TimerContext.release] *)
Definition release : PyM World unit :=
  w ← get;
  match ctx w with
  | None => mret tt
  | Some c =>
      (match timer c with
       | Some src => emit (DispatchRelease src);;
                     set_ctx {| cancelled := cancelled c; timer := None; py_obj := py_obj c |}
       | None => mret tt
       end);;
      w' ← get;
      match ctx w' with
      | Some c' => set_ctx {| cancelled := cancelled c'; timer := timer c'; py_obj := false |};;
                   emit (DropContext (ptr w'))
      | None => mret tt
      end
  end.

(** [_context_from_ptr]: NULL gives [None]; any other pointer is
    dereferenced, which is defined only while it points to the live cell. *)
Definition context_from_ptr (p : Z) : PyM World (option Ctx) :=
  if p =? 0 then mret None
  else
  w ← get;
  match ctx w with
  | Some c => if (p =? ptr w) && py_obj c then mret (Some c) else raise UndefinedBehaviour
  | None => raise UndefinedBehaviour
  end.

Definition set_result : PyM World unit := fun w =>
  if fut_done (fut w) then (inl InvalidStateError, w)
  else (inr tt, mk (trace w) Finished (S (resolutions w)) (callbacks w)
                   (queue w ++ replicate (callbacks w) CleanupCb) (ctx w) (ptr w)
                   (src_cancel_requested w) (cancel_handler_ran w)).

Definition cancel : PyM World unit := fun w =>
  if fut_done (fut w) then (inr tt, w)
  else (inr tt, mk (trace w) Cancelled (resolutions w) (callbacks w)
                   (queue w ++ replicate (callbacks w) CleanupCb) (ctx w) (ptr w)
                   (src_cancel_requested w) (cancel_handler_ran w)).

(** [_event_handler], on a dispatch worker thread. *)
Definition event_handler (p : Z) : PyM World unit :=
  context ← context_from_ptr p;
  match context with
  | None => mret tt
  | Some _ =>
      w ← get;
      if fut_done (fut w) then cancel_timer
      else emit CallSoonThreadsafe;; call_soon SetResultCb;; cancel_timer
  end.

(** [_cancel_handler], on a dispatch worker thread. *)
Definition cancel_handler (p : Z) : PyM World unit :=
  context ← context_from_ptr p;
  match context with
  | None => mret tt
  | Some _ => release
  end.

(** [_set_result] and [_cleanup], run by the loop. *)
Definition run_item (it : Item) : PyM World unit :=
  match it with
  | SetResultCb => w ← get; if negb (fut_done (fut w)) then set_result else mret tt
  | CleanupCb => cancel_timer
  end.

Definition program_timer (env : Env) (timer : Z) (target_time : datetime)
  : PyM World unit :=
  let timestamp := py_timestamp env target_time in
  let '(seconds, nanoseconds) := split_deadline timestamp in
  let ts := {| tv_sec := seconds; tv_nsec := nanoseconds |} in
  emit (DispatchSetTimer timer ts).

Definition wait_until (env : Env) (target_time : datetime) : PyM World FutureObj :=
  emit CreateFuture;;
  emit GetGlobalQueue;;
  if global_queue_ret env =? 0 then raise OSError
  else
  let timer := dispatch_source_create_ret env in
  if timer =? 0 then raise OSError
  else
  emit (DispatchSourceCreate timer);;
  set_ctx {| cancelled := false; timer := Some timer; py_obj := false |};;
  (* context.as_context_ptr() *)
  set_ctx {| cancelled := false; timer := Some timer; py_obj := true |};;
  modify (fun w => mk (trace w) (fut w) (resolutions w) (callbacks w) (queue w)
                      (ctx w) (context_ptr env) (src_cancel_requested w)
                      (cancel_handler_ran w));;
  emit (DispatchSetContext timer (context_ptr env));;
  emit (DispatchSetHandlers timer);;
  program_timer env timer target_time;;
  emit (DispatchResume timer);;
  modify (fun w => mk (trace w) (fut w) (resolutions w) (S (callbacks w)) (queue w)
                      (ctx w) (ptr w) (src_cancel_requested w) (cancel_handler_ran w));;
  mret (DispatchFuture timer).

(** Steps after [wait_until] returned.  libdispatch runs the event handler
    while the cancel handler has not run, and runs the cancel handler once,
    after cancellation was requested; both get the context pointer. *)
Inductive Event := NativeEvent | NativeCancel | UserCancel | LoopRun.

Definition step (ev : Event) : PyM World unit :=
  w ← get;
  match ev with
  | NativeEvent => if cancel_handler_ran w then mret tt else event_handler (ptr w)
  | NativeCancel =>
      if src_cancel_requested w && negb (cancel_handler_ran w)
      then modify (fun w => mk (trace w) (fut w) (resolutions w) (callbacks w)
                               (queue w) (ctx w) (ptr w) true true);;
           cancel_handler (ptr w)
      else mret tt
  | UserCancel => cancel
  | LoopRun =>
      match queue w with
      | [] => mret tt
      | it :: q => modify (fun w => mk (trace w) (fut w) (resolutions w) (callbacks w)
                                       q (ctx w) (ptr w) (src_cancel_requested w)
                                       (cancel_handler_ran w));;
                   run_item it
      end
  end.

End Darwin.

(** The worlds of one Darwin wait on source [src]: after [wait_until]
    returned its future, then after any sequence of events.  The context
    pointer is the address of a [ctypes.pointer] to the [py_object] cell,
    never NULL. *)
Inductive darwin_reachable (src : Z) : Darwin.World -> Prop :=
| dreach_start env dt w :
    context_ptr env <> 0 ->
    Darwin.wait_until env dt Darwin.init = (inr (DispatchFuture src), w) ->
    darwin_reachable src w
| dreach_step w ev r w' :
    darwin_reachable src w -> Darwin.step ev w = (r, w') -> darwin_reachable src w'.

(* ------------------------------------------------------------------ *)
(** ** sleep_absolute/__init__.py: the platform selector *)

Inductive Backend := LinuxBackend | WindowsBackend.

(** The module-level [_impl], chosen from [sys.platform] at import. *)
Definition select_impl (platform : string) : option Backend :=
  if String.prefix "linux" platform then Some LinuxBackend
  else if String.prefix "win32" platform || String.prefix "cygwin" platform
  then Some WindowsBackend
  else None.

Inductive Outcome := Raised (e : PyExc) | Returned (f : FutureObj).

Definition outcome (r : PyExc + FutureObj) : Outcome :=
  match r with inl e => Raised e | inr f => Returned f end.

(** The public [wait_until]: its outcome and the calls it made. *)
Definition wait_until (impl : option Backend) (env : Env) (target_time : datetime)
  : Outcome * list NativeCall :=
  match impl with
  | None => (Raised NotImplementedError, [])
  | Some LinuxBackend =>
      let '(r, w) := Linux.wait_until env target_time Linux.init in
      (outcome r, Linux.trace w)
  | Some WindowsBackend =>
      let '(r, tr) := Windows.wait_until env target_time [] in (outcome r, tr)
  end.

(* ------------------------------------------------------------------ *)
(** ** Observations on traces, and sample inputs *)

Fixpoint count_calls (f : NativeCall -> bool) (tr : list NativeCall) : nat :=
  match tr with
  | [] => 0
  | c :: tr' => (if f c then 1 else 0) + count_calls f tr'
  end.

Definition is_timerfd_create c := match c with TimerfdCreate _ => true | _ => false end.
Definition is_os_close c := match c with OsClose _ => true | _ => false end.
Definition is_create_waitable c := match c with CreateWaitableTimerW _ => true | _ => false end.
Definition is_close_handle c := match c with CloseHandle _ => true | _ => false end.
Definition is_timer_create c := match c with TimerCreate _ _ => true | _ => false end.
Definition is_timer_delete c := match c with TimerDelete _ _ => true | _ => false end.
Definition is_source_create c := match c with DispatchSourceCreate _ => true | _ => false end.
Definition is_source_release c :=
  match c with DispatchRelease _ | DropContext _ => true | _ => false end.
Definition is_dispatch_release c := match c with DispatchRelease _ => true | _ => false end.
Definition is_drop_context c := match c with DropContext _ => true | _ => false end.
Definition is_source_cancel c := match c with DispatchSourceCancel _ => true | _ => false end.

(** The same for one [_TimerContext] key. *)
Definition is_set_closed_of k c := match c with SetClosed k' => k =? k' | _ => false end.
Definition is_pop_of k c := match c with ContextsPop k' => k =? k' | _ => false end.
Definition is_delete_of k c := match c with TimerDelete k' _ => k =? k' | _ => false end.

(** An event loop and an OS on which every call succeeds; naive datetimes
    are read in UTC+9. *)
Definition env_ok : Env :=
  {| local_utcoffset := fun _ => 32400%Q;
     loop_add_reader := true; loop_remove_reader := true; add_reader_exc := None;
     loop_proactor := true; wait_for_handle_exc := None;
     timerfd_create_ret := 5; timerfd_settime_ret := 0;
     create_waitable_ret := 7; set_waitable_ret := true;
     context_id := 42; timer_create_ret := 0; timer_create_id := 9;
     timer_settime_ret := 0;
     global_queue_ret := 1; dispatch_source_create_ret := 3; context_ptr := 100 |}.

(** The same, but every creation of a native timer fails. *)
Definition env_create_fails : Env :=
  {| local_utcoffset := fun _ => 0%Q;
     loop_add_reader := true; loop_remove_reader := true; add_reader_exc := None;
     loop_proactor := true; wait_for_handle_exc := None;
     timerfd_create_ret := -1; timerfd_settime_ret := 0;
     create_waitable_ret := 0; set_waitable_ret := true;
     context_id := 42; timer_create_ret := -1; timer_create_id := 9;
     timer_settime_ret := 0;
     global_queue_ret := 1; dispatch_source_create_ret := 0; context_ptr := 100 |}.

(** A loop object without [remove_reader]. *)
Definition env_no_remove_reader : Env :=
  {| local_utcoffset := fun _ => 0%Q;
     loop_add_reader := true; loop_remove_reader := false; add_reader_exc := None;
     loop_proactor := false; wait_for_handle_exc := None;
     timerfd_create_ret := 5; timerfd_settime_ret := 0;
     create_waitable_ret := 7; set_waitable_ret := true;
     context_id := 42; timer_create_ret := 0; timer_create_id := 9;
     timer_settime_ret := 0;
     global_queue_ret := 1; dispatch_source_create_ret := 3; context_ptr := 100 |}.

(** Every call succeeds except the registration with the loop:
    [loop.add_reader] and [proactor.wait_for_handle] raise [OSError]. *)
Definition env_register_fails : Env :=
  {| local_utcoffset := fun _ => 0%Q;
     loop_add_reader := true; loop_remove_reader := true;
     add_reader_exc := Some OSError;
     loop_proactor := true; wait_for_handle_exc := Some OSError;
     timerfd_create_ret := 5; timerfd_settime_ret := 0;
     create_waitable_ret := 7; set_waitable_ret := true;
     context_id := 42; timer_create_ret := 0; timer_create_id := 9;
     timer_settime_ret := 0;
     global_queue_ret := 1; dispatch_source_create_ret := 3; context_ptr := 100 |}.

(** [datetime.datetime(2024, 1, 1, 9, 0, 0)]: naive. *)
Definition naive_dt : datetime := {| wall := 1704099600%Q; tzinfo := None |}.

(** A naive datetime with its local offset attached ([dt.astimezone()]). *)
Definition as_local (env : Env) (dt : datetime) : datetime :=
  {| wall := wall dt; tzinfo := Some (local_utcoffset env (wall dt)) |}.

(** The invariant of a Linux wait. *)
Definition linux_inv (w : Linux.World) : Prop :=
  count_calls is_os_close (Linux.trace w) = (if Linux.closed w then 1 else 0)%nat
  /\ Linux.resolutions w = (match Linux.fut w with Finished => 1 | _ => 0 end)%nat
  /\ Linux.callbacks w = 1%nat
  /\ (Linux.closed w = true -> fut_done (Linux.fut w) = true)
  /\ (Linux.fut w = Pending -> Linux.ready w = 0%nat)
  /\ (fut_done (Linux.fut w) = true -> Linux.closed w = false -> (1 <= Linux.ready w)%nat).

(** The timer of key [k] is deleted only after [SetClosed k]: scanning the
    trace, [seen] records whether [SetClosed k] has been met. *)
Fixpoint closed_before_delete (k : Z) (seen : bool) (tr : list NativeCall) : bool :=
  match tr with
  | [] => true
  | c :: tr' =>
      (negb (is_delete_of k c) || seen)
      && closed_before_delete k (seen || is_set_closed_of k c) tr'
  end.

Definition is_create_of k c := match c with TimerCreate k' _ => k =? k' | _ => false end.

(** The invariant of the timer_create module, per key: the counts of the
    calls made for the key, and its registry entry, follow its [_closed]. *)
Definition tc_core (w : TimerCreate.World) (k : Z) : Prop :=
  let tr := TimerCreate.trace w in
  closed_before_delete k false tr = true /\
  match TimerCreate.objs w !! k with
  | None =>
      count_calls (is_set_closed_of k) tr = 0%nat
      /\ count_calls (is_pop_of k) tr = 0%nat
      /\ count_calls (is_delete_of k) tr = 0%nat
      /\ count_calls (is_create_of k) tr = 0%nat
      /\ k ∉ TimerCreate.contexts w
  | Some c =>
      count_calls (is_set_closed_of k) tr = (if TimerCreate.closed c then 1 else 0)%nat
      /\ count_calls (is_pop_of k) tr = (if TimerCreate.closed c then 1 else 0)%nat
      /\ count_calls (is_delete_of k) tr
         = (if TimerCreate.closed c then count_calls (is_create_of k) tr else 0)%nat
      /\ (count_calls (is_create_of k) tr <= 1)%nat
      /\ (TimerCreate.closed c = false ->
          TimerCreate.timer_id c <> 0 /\ count_calls (is_create_of k) tr = 1%nat
          /\ (1 <= TimerCreate.callbacks c)%nat)
      /\ (TimerCreate.closed c = true -> TimerCreate.timer_id c = 0)
      /\ (k ∈ TimerCreate.contexts w <-> TimerCreate.closed c = false)
      /\ TimerCreate.resolutions c
         = (match TimerCreate.future c with Finished => 1 | _ => 0 end)%nat
  end.

(** A done future whose context is still open has its [_on_done] callback
    in the loop's queue. *)
Definition tc_ondone (w : TimerCreate.World) (k : Z) : Prop :=
  forall c, TimerCreate.objs w !! k = Some c ->
  fut_done (TimerCreate.future c) = true -> TimerCreate.closed c = false ->
  TimerCreate.OnDone k ∈ TimerCreate.queue w.

Definition tc_inv (w : TimerCreate.World) : Prop :=
  forall k, tc_core w k /\ tc_ondone w k.

(** The invariant, except that the [_on_done] of [key] may have been taken
    off the queue by the loop. *)
Definition tc_inv_except (key : Z) (w : TimerCreate.World) : Prop :=
  (forall k, tc_core w k) /\ (forall k, k <> key -> tc_ondone w k).

(** Calls that concern another key leave the key's part alone. *)
Definition untouched (k : Z) (l : list NativeCall) : Prop :=
  count_calls (is_set_closed_of k) l = 0%nat /\ count_calls (is_pop_of k) l = 0%nat
  /\ count_calls (is_delete_of k) l = 0%nat /\ count_calls (is_create_of k) l = 0%nat.

(** The invariant of a Darwin wait on source [src]: the context keeps the
    source and the cell until the cancel handler has run, which needs a
    cancellation request; [dispatch_source_cancel], [dispatch_release] and
    the dropping of the cell are counted by these flags; a done future has
    cancellation requested or its [_cleanup] in the queue. *)
Definition darwin_inv (src : Z) (w : Darwin.World) : Prop :=
  let chr := Darwin.cancel_handler_ran w in
  let scr := Darwin.src_cancel_requested w in
  Darwin.ptr w <> 0 /\ Darwin.callbacks w = 1%nat
  /\ Darwin.resolutions w = (match Darwin.fut w with Finished => 1 | _ => 0 end)%nat
  /\ (chr = true -> scr = true)
  /\ Darwin.ctx w = Some {| Darwin.cancelled := scr;
                            Darwin.timer := if chr then None else Some src;
                            Darwin.py_obj := negb chr |}
  /\ count_calls is_source_cancel (Darwin.trace w) = (if scr then 1 else 0)%nat
  /\ count_calls is_dispatch_release (Darwin.trace w) = (if chr then 1 else 0)%nat
  /\ count_calls is_drop_context (Darwin.trace w) = (if chr then 1 else 0)%nat
  /\ (fut_done (Darwin.fut w) = true -> scr = true \/ Darwin.CleanupCb ∈ Darwin.queue w).

(** What a Darwin context still holds: its timer source and its
    [py_object] cell. *)
Definition darwin_held (w : Darwin.World) : option (option Z * bool) :=
  option_map (fun c => (Darwin.timer c, Darwin.py_obj c)) (Darwin.ctx w).

(** A Darwin wait that was cancelled by the caller: the loop ran [_cleanup],
    libdispatch ran the cancel handler, which released the context. *)
Definition darwin_released : Darwin.World :=
  let w0 := snd (Darwin.wait_until env_ok naive_dt Darwin.init) in
  let w1 := snd (Darwin.step Darwin.UserCancel w0) in
  let w2 := snd (Darwin.step Darwin.LoopRun w1) in
  snd (Darwin.step Darwin.NativeCancel w2).

(** Worlds after a successful [wait_until] with [env_ok]. *)
Definition tc_started : TimerCreate.World :=
  snd (TimerCreate.wait_until env_ok naive_dt TimerCreate.empty).

Definition linux_started : Linux.World :=
  snd (Linux.wait_until env_ok naive_dt Linux.init).

Definition darwin_armed : Darwin.World := snd (Darwin.wait_until env_ok naive_dt Darwin.init).

(** Every arming of a native timer fails (and no dispatch source can be
    created). *)
Definition env_settime_fails : Env :=
  {| local_utcoffset := fun _ => 0%Q;
     loop_add_reader := true; loop_remove_reader := true; add_reader_exc := None;
     loop_proactor := true; wait_for_handle_exc := None;
     timerfd_create_ret := 5; timerfd_settime_ret := -1;
     create_waitable_ret := 7; set_waitable_ret := false;
     context_id := 42; timer_create_ret := 0; timer_create_id := 9;
     timer_settime_ret := -1;
     global_queue_ret := 1; dispatch_source_create_ret := 0; context_ptr := 100 |}.

(** The POSIX timer of [tc_started] fires: the notification thread posts
    [_resolve], the loop runs it and then the [_on_done] callback. *)
Definition tc_fired : TimerCreate.World :=
  snd (TimerCreate.run [TimerCreate.Notify 42; TimerCreate.ThreadCheck 0;
                        TimerCreate.ThreadPost 0; TimerCreate.LoopRun;
                        TimerCreate.LoopRun] tc_started).

(** The context of [tc_started]: pending, open, its timer created. *)
Definition ctx_started : TimerCreate.Ctx :=
  {| TimerCreate.future := Pending; TimerCreate.resolutions := 0;
     TimerCreate.closed := false; TimerCreate.timer_id := 9;
     TimerCreate.callbacks := 1 |}.

(** [darwin_armed] after the caller cancelled and the loop ran [_cleanup],
    before libdispatch runs the cancel handler. *)
Definition darwin_cancel_requested : Darwin.World :=
  snd (Darwin.step Darwin.LoopRun (snd (Darwin.step Darwin.UserCancel darwin_armed))).

(** The context of [tc_fired]. *)
Definition ctx_fired : TimerCreate.Ctx :=
  {| TimerCreate.future := Finished; TimerCreate.resolutions := 1;
     TimerCreate.closed := true; TimerCreate.timer_id := 0;
     TimerCreate.callbacks := 1 |}.

(** [linux_started] after the descriptor became readable and the loop ran
    the done-callback; after the caller cancelled and the loop ran the
    done-callback. *)
Definition linux_fired : Linux.World :=
  snd (Linux.run 5 [Linux.Ready; Linux.RunCallback] linux_started).

Definition linux_cancelled : Linux.World :=
  snd (Linux.run 5 [Linux.Cancel; Linux.RunCallback] linux_started).

(** [tc_started] after the caller cancelled and the loop ran [_on_done]. *)
Definition tc_cancelled : TimerCreate.World :=
  snd (TimerCreate.run [TimerCreate.UserCancel 42; TimerCreate.LoopRun] tc_started).

Definition ctx_cancelled : TimerCreate.Ctx :=
  {| TimerCreate.future := Cancelled; TimerCreate.resolutions := 0;
     TimerCreate.closed := true; TimerCreate.timer_id := 0;
     TimerCreate.callbacks := 1 |}.

(** A timer_create wait whose [timer_settime] failed, and its context. *)
Definition tc_setup_failed : TimerCreate.World :=
  snd (TimerCreate.wait_until env_settime_fails naive_dt TimerCreate.empty).

Definition ctx_setup_failed : TimerCreate.Ctx :=
  {| TimerCreate.future := Pending; TimerCreate.resolutions := 0;
     TimerCreate.closed := true; TimerCreate.timer_id := 0;
     TimerCreate.callbacks := 0 |}.


(* ------------------------------------------------------------------ *)
(** ** Lemmas on the numeric primitives *)

Example py_round_half_even : py_round (5 # 2) = 2 /\ py_round (7 # 2) = 4
  /\ py_round (-5 # 2) = -2.
Proof. vm_compute. auto. Qed.

Example timestamp_to_spec_carry :
  it_value (timestamp_to_spec (1 + (99999999999 # 100000000000))%Q)
  = {| tv_sec := 2; tv_nsec := 0 |}.
Proof. vm_compute. reflexivity. Qed.


Lemma Qfloor_unique (z : Z) (x : Q) :
  (inject_Z z <= x)%Q -> (x < inject_Z (z + 1))%Q -> Qfloor x = z.
Proof.
  intros Hle Hlt.
  assert (Hz : Qfloor (inject_Z z) = z).
  { unfold Qfloor, inject_Z. simpl. apply Z.div_1_r. }
  pose proof (Qfloor_resp_le _ _ Hle) as H1. rewrite Hz in H1.
  pose proof (Qfloor_le x) as H2.
  assert (H3 : (inject_Z (Qfloor x) < inject_Z (z + 1))%Q)
    by (eapply Qle_lt_trans; eassumption).
  rewrite <- Zlt_Qlt in H3. lia.
Qed.

Lemma Qfloor_shift (n : Z) (x : Q) :
  Qfloor (inject_Z n + x) = n + Qfloor x.
Proof.
  apply Qfloor_unique.
  - rewrite inject_Z_plus. apply Qplus_le_r. apply Qfloor_le.
  - rewrite <- Z.add_assoc, inject_Z_plus. apply Qplus_lt_r. apply Qlt_floor.
Qed.

Lemma py_round_comp (x y : Q) : (x == y)%Q -> py_round x = py_round y.
Proof.
  intros Hxy. unfold py_round.
  rewrite (Qfloor_comp _ _ Hxy).
  assert (E : (x - inject_Z (Qfloor y) == y - inject_Z (Qfloor y))%Q)
    by (rewrite Hxy; reflexivity).
  rewrite (Qcompare_comp _ _ E (1 # 2) (1 # 2) (Qeq_refl _)).
  reflexivity.
Qed.

Lemma py_round_shift_even (n : Z) (x : Q) :
  Z.even n = true -> py_round (inject_Z n + x) = n + py_round x.
Proof.
  intros Hev. unfold py_round. rewrite Qfloor_shift.
  assert (E : (inject_Z n + x - inject_Z (n + Qfloor x)
               == x - inject_Z (Qfloor x))%Q)
    by (rewrite inject_Z_plus; ring).
  rewrite (Qcompare_comp _ _ E (1 # 2) (1 # 2) (Qeq_refl _)).
  rewrite Z.even_add, Hev.
  destruct (Qcompare _ _); try lia.
  destruct (Z.even (Qfloor x)); simpl; lia.
Qed.

(** C2, code bug: because of the swapped [modf] unpacking the conversion
    drops the sub-second part.  At the timestamp 1.5 the code yields
    116444736010000000 ticks, while [round(t * 10**7)] shifted by the epoch
    difference is 116444736015000000.  (Every value involved is an integer
    or a half below 2^53, so the double arithmetic of the source is exact
    here.) *)
Theorem unix_to_windows_ticks_drops_fraction :
  unix_to_windows_ticks (3 # 2) = 116444736010000000
  /\ py_round ((3 # 2) * inject_Z WINDOWS_TICK)
       + EPOCH_DIFFERENCE_SECONDS * WINDOWS_TICK = 116444736015000000
  /\ unix_to_windows_ticks (3 # 2)
     <> py_round ((3 # 2) * inject_Z WINDOWS_TICK)
        + EPOCH_DIFFERENCE_SECONDS * WINDOWS_TICK.
Proof.
  vm_compute. split; [reflexivity|]. split; [reflexivity|]. discriminate.
Qed.

Lemma py_trunc_nonneg (t : Q) : (0 <= t)%Q -> py_trunc t = Qfloor t.
Proof.
  intros H. unfold py_trunc, Qfloor. destruct t as [n d].
  unfold Qle in H. simpl in *. apply Z.quot_div_nonneg; lia.
Qed.

Lemma py_round_range (y : Q) (m : Z) :
  (0 <= y)%Q -> (y < inject_Z m)%Q -> 0 <= py_round y <= m.
Proof.
  intros H0 Hm.
  pose proof (Qfloor_resp_le _ _ H0) as F0.
  change (Qfloor 0) with 0 in F0.
  pose proof (Qfloor_le y) as F1.
  assert (F2 : (inject_Z (Qfloor y) < inject_Z m)%Q)
    by (eapply Qle_lt_trans; eassumption).
  rewrite <- Zlt_Qlt in F2.
  unfold py_round. destruct (Qcompare _ _); [destruct (Z.even _)|..]; lia.
Qed.

(** For timestamps at or after the epoch the nanosecond field is in range. *)
Lemma split_deadline_nonneg (t : Q) :
  (0 <= t)%Q -> 0 <= snd (split_deadline t) < NS_PER_SEC.
Proof.
  intros Ht. unfold split_deadline, py_modf.
  rewrite (py_trunc_nonneg t Ht).
  pose proof (Qfloor_le t) as F1. pose proof (Qlt_floor t) as F2.
  assert (R : 0 <= py_round ((t - inject_Z (Qfloor t)) * inject_Z NS_PER_SEC)
              <= NS_PER_SEC).
  { apply py_round_range.
    - apply Qmult_le_0_compat; [|discriminate].
      apply Qle_minus_iff in F1. exact F1.
    - rewrite inject_Z_plus in F2. change (inject_Z 1) with 1%Q in F2.
      change (inject_Z NS_PER_SEC) with (1000000000 # 1)%Q. lra. }
  set (n := py_round _) in *.
  destruct (NS_PER_SEC <=? n) eqn:E; simpl.
  - apply Z.leb_le in E. unfold NS_PER_SEC in *. lia.
  - apply Z.leb_gt in E. unfold NS_PER_SEC in *. lia.
Qed.

(** C1 failing input: 1969-12-31T23:59:59.5Z, i.e. the timestamp -0.5.
    [math.modf] keeps the sign, so the nanosecond field is negative and no
    borrow is taken. *)
Theorem timestamp_to_spec_negative_fraction :
  it_value (timestamp_to_spec (-1 # 2)%Q)
  = {| tv_sec := 0; tv_nsec := -500000000 |}
  /\ ~ (0 <= tv_nsec (it_value (timestamp_to_spec (-1 # 2)%Q)) < NS_PER_SEC).
Proof.
  assert (H : it_value (timestamp_to_spec (-1 # 2)%Q)
              = {| tv_sec := 0; tv_nsec := -500000000 |}) by (vm_compute; reflexivity).
  split; [exact H|]. rewrite H. simpl. unfold NS_PER_SEC. lia.
Qed.

(* ------------------------------------------------------------------ *)
(** ** Sample runs *)

Example linux_sample :
  Linux.wait_until env_ok naive_dt Linux.init
  = (inr (LoopFuture 5),
     {| Linux.trace := [TimerfdCreate 5;
                        TimerfdSettime 5 (timestamp_to_spec 1704067200%Q);
                        CreateFuture; AddReader 5];
        Linux.fut := Pending; Linux.resolutions := 0; Linux.closed := false;
        Linux.callbacks := 1; Linux.ready := 0 |}).
Proof. vm_compute. reflexivity. Qed.

Example linux_sample_fire :
  let '(_, w) := Linux.wait_until env_ok naive_dt Linux.init in
  let '(r, w') := Linux.run 5 [Linux.Ready; Linux.RunCallback; Linux.Ready] w in
  r = inr tt /\ Linux.fut w' = Finished /\ Linux.resolutions w' = 1%nat
  /\ count_calls is_os_close (Linux.trace w') = 1%nat.
Proof. vm_compute. auto. Qed.

(* ------------------------------------------------------------------ *)
(** ** C10: the Linux backend checks the loop before creating a timerfd *)

(** C10: when the loop object has no [add_reader] or no [remove_reader],
    the Linux [wait_until] raises [RuntimeError] and leaves the world as it
    found it: no timer descriptor is created. *)
Theorem linux_rejects_loop_without_readers (env : Env) (dt : datetime)
  (w : Linux.World) :
  loop_add_reader env = false \/ loop_remove_reader env = false ->
  Linux.wait_until env dt w = (inl RuntimeError, w).
Proof.
  intros H. unfold Linux.wait_until.
  destruct H as [H | H]; rewrite H; [reflexivity|].
  rewrite andb_false_r. reflexivity.
Qed.

Lemma linux_rejects_loop_without_readers_witness :
  (loop_add_reader env_no_remove_reader = false
   \/ loop_remove_reader env_no_remove_reader = false)
  /\ Linux.wait_until env_no_remove_reader naive_dt Linux.init
     = (inl RuntimeError, Linux.init).
Proof.
  split; [right; reflexivity|].
  apply linux_rejects_loop_without_readers. right. reflexivity.
Defined.

(* ------------------------------------------------------------------ *)
(** ** Setup failures, backend by backend *)

Lemma count_calls_app f l1 l2 :
  count_calls f (l1 ++ l2) = (count_calls f l1 + count_calls f l2)%nat.
Proof. induction l1 as [|c l1 IH]; simpl; [reflexivity|]. rewrite IH. lia. Qed.

Lemma linux_setup_failure (env : Env) (dt : datetime) :
  timerfd_create_ret env = -1 \/ timerfd_settime_ret env <> 0 ->
  exists e w, Linux.wait_until env dt Linux.init = (inl e, w)
    /\ count_calls is_timerfd_create (Linux.trace w)
       = count_calls is_os_close (Linux.trace w).
Proof.
  intros H. unfold Linux.wait_until.
  destruct (negb (loop_add_reader env && loop_remove_reader env)).
  { do 2 eexists. split; reflexivity. }
  cbn. unfold Linux.create_timerfd.
  destruct (Z.eqb_spec (timerfd_create_ret env) (-1)) as [E|E].
  { do 2 eexists. split; reflexivity. }
  destruct H as [H|H]; [contradiction|].
  cbn. unfold Linux.program_timerfd.
  destruct (split_deadline _) as [sec ns]. cbn.
  apply Z.eqb_neq in H. rewrite H. cbn.
  do 2 eexists. split; reflexivity.
Qed.

Lemma windows_setup_failure (env : Env) (dt : datetime) :
  create_waitable_ret env = 0 \/ set_waitable_ret env = false ->
  exists e tr, Windows.wait_until env dt [] = (inl e, tr)
    /\ count_calls is_create_waitable tr = count_calls is_close_handle tr.
Proof.
  intros H. unfold Windows.wait_until.
  destruct (negb (loop_proactor env)).
  { do 2 eexists. split; reflexivity. }
  destruct (Z.eqb_spec (create_waitable_ret env) 0) as [E|E].
  { do 2 eexists. split; reflexivity. }
  destruct H as [H|H]; [contradiction|]. rewrite H. cbn.
  do 2 eexists. split; reflexivity.
Qed.

Lemma darwin_setup_failure (env : Env) (dt : datetime) :
  global_queue_ret env = 0 \/ dispatch_source_create_ret env = 0 ->
  exists e w, Darwin.wait_until env dt Darwin.init = (inl e, w)
    /\ count_calls is_source_create (Darwin.trace w) = 0%nat.
Proof.
  intros H. unfold Darwin.wait_until. cbn.
  destruct (Z.eqb_spec (global_queue_ret env) 0) as [E|E].
  { do 2 eexists. split; reflexivity. }
  destruct H as [H|H]; [contradiction|]. rewrite H. cbn.
  do 2 eexists. split; reflexivity.
Qed.

(* ------------------------------------------------------------------ *)
(** ** The Linux backend after [wait_until] returned *)

Ltac pym := unfold mbind, mret, PyM_bind, PyM_ret, get, modify, raise,
  try_reraise, try_finally, raise_opt, emit, add_call, Linux.traced,
  Windows.traced, TimerCreate.traced, Darwin.traced in *.


Lemma linux_inv_start env dt fd w :
  Linux.wait_until env dt Linux.init = (inr (LoopFuture fd), w) -> linux_inv w.
Proof.
  unfold Linux.wait_until, Linux.create_timerfd, Linux.program_timerfd,
    Linux.add_done_callback. pym.
  destruct (negb _); [discriminate|].
  destruct (timerfd_create_ret env =? -1); [discriminate|].
  destruct (split_deadline _) as [sec ns]. cbn.
  destruct (timerfd_settime_ret env =? 0); cbn; [|discriminate].
  destruct (add_reader_exc env); cbn.
  - unfold Linux.close_fd. pym. cbn. discriminate.
  - intros [= _ <-]. cbn.
    unfold linux_inv; cbn. repeat split; discriminate.
Qed.

Lemma linux_step_inv fd ev w :
  linux_inv w ->
  exists w', Linux.step fd ev w = (inr tt, w') /\ linux_inv w'.
Proof.
  destruct w as [tr f r cl cb rd].
  unfold linux_inv; cbn. intros (Hc & Hr & Hcb & Hcl & Hp & Hq).
  destruct ev; unfold Linux.step, Linux.on_ready, Linux.set_result,
    Linux.cancel, Linux.cleanup_callback, Linux.close_fd, Linux.set_closed; pym;
    destruct f, cl; cbn in *; try (destruct rd; cbn);
    eexists; split; try reflexivity; cbn;
    repeat rewrite count_calls_app; cbn; rewrite ?Hc;
    repeat split; intros;
    try discriminate; try lia;
    try (specialize (Hp eq_refl); lia);
    try (specialize (Hcl eq_refl); discriminate).
Qed.

Lemma linux_reachable_inv fd w : Linux.reachable fd w -> linux_inv w.
Proof.
  induction 1 as [env dt w H | w ev r w' _ IH Hs].
  - eapply linux_inv_start; eassumption.
  - destruct (linux_step_inv fd ev w IH) as (w'' & Hs' & Hi).
    rewrite Hs in Hs'. injection Hs' as _ <-. exact Hi.
Qed.

(** The Linux half of C3. *)
Lemma linux_single_release fd w :
  Linux.reachable fd w ->
  (forall ev, exists w', Linux.step fd ev w = (inr tt, w'))
  /\ (Linux.resolutions w <= 1)%nat
  /\ (count_calls is_os_close (Linux.trace w) <= 1)%nat
  /\ (fut_done (Linux.fut w) = true ->
      exists w', Linux.on_ready fd w = (inr tt, w')
        /\ Linux.fut w' = Linux.fut w
        /\ Linux.resolutions w' = Linux.resolutions w
        /\ (count_calls is_os_close (Linux.trace w') <= 1)%nat)
  /\ (fut_done (Linux.fut w) = true -> Linux.ready w = 0%nat ->
      count_calls is_os_close (Linux.trace w) = 1%nat).
Proof.
  intros Hr. pose proof (linux_reachable_inv fd w Hr) as Hi.
  split; [intros ev; destruct (linux_step_inv fd ev w Hi) as (w' & E & _); eauto|].
  destruct w as [tr f r cl cb rd].
  unfold linux_inv in Hi; cbn in *. destruct Hi as (Hc & Hres & Hcb & Hcl & Hp & Hq).
  split; [destruct f; lia|]. split; [destruct cl; lia|]. split.
  - intros Hd. unfold Linux.on_ready, Linux.close_fd, Linux.set_closed. pym.
    destruct f; [discriminate| |]; destruct cl; cbn;
      eexists; (split; [reflexivity|]); cbn;
      rewrite ?count_calls_app; cbn; rewrite ?Hc; repeat split; lia.
  - intros Hd Hrd. destruct cl; [exact Hc|].
    specialize (Hq Hd eq_refl). lia.
Qed.

(* ------------------------------------------------------------------ *)
(** ** The timer_create backend: the invariant *)

Lemma cbd_app k s l1 l2 :
  closed_before_delete k s (l1 ++ l2)
  = closed_before_delete k s l1
    && closed_before_delete k (s || existsb (is_set_closed_of k) l1) l2.
Proof.
  revert s. induction l1 as [|c l1 IH]; intros s; simpl.
  - rewrite orb_false_r. reflexivity.
  - rewrite IH, andb_assoc, orb_assoc. reflexivity.
Qed.

Lemma cbd_true k l : closed_before_delete k true l = true.
Proof. induction l as [|c l IH]; simpl; [reflexivity|]. rewrite orb_true_r. exact IH. Qed.

Lemma cbd_nodel k s l :
  count_calls (is_delete_of k) l = 0%nat -> closed_before_delete k s l = true.
Proof.
  revert s. induction l as [|c l IH]; intros s H; simpl in *; [reflexivity|].
  destruct (is_delete_of k c); [discriminate|]. simpl. apply IH. exact H.
Qed.

Lemma existsb_count k l :
  existsb (is_set_closed_of k) l = false <-> count_calls (is_set_closed_of k) l = 0%nat.
Proof.
  induction l as [|c l IH]; simpl; [tauto|].
  destruct (is_set_closed_of k c); simpl; [split; discriminate|exact IH].
Qed.

Lemma tc_core_frame w w' k new :
  TimerCreate.trace w' = TimerCreate.trace w ++ new -> untouched k new ->
  TimerCreate.objs w' !! k = TimerCreate.objs w !! k ->
  (k ∈ TimerCreate.contexts w' <-> k ∈ TimerCreate.contexts w) ->
  tc_core w k -> tc_core w' k.
Proof.
  intros Ht (U1 & U2 & U3 & U4) Ho Hc [Hcbd Hk]. unfold tc_core.
  rewrite Ht, Ho, !count_calls_app, U1, U2, U3, U4, cbd_app, Hcbd.
  rewrite cbd_nodel by exact U3. split; [reflexivity|].
  destruct (TimerCreate.objs w !! k); rewrite Hc, ?Nat.add_0_r; exact Hk.
Qed.

Lemma tc_ondone_frame w w' k :
  TimerCreate.objs w' !! k = TimerCreate.objs w !! k ->
  (TimerCreate.OnDone k ∈ TimerCreate.queue w -> TimerCreate.OnDone k ∈ TimerCreate.queue w') ->
  tc_ondone w k -> tc_ondone w' k.
Proof. intros Ho Hq H c Hc. rewrite Ho in Hc. eauto. Qed.

Section TimerCreateOps.
Import TimerCreate.

Lemma with_ctx_eq key (k : Ctx -> PyM World unit) w :
  with_ctx key k w = match objs w !! key with Some c => k c w | None => (inr tt, w) end.
Proof. unfold with_ctx. pym. destruct (objs w !! key); reflexivity. Qed.

Lemma cleanup_skip key w :
  (forall c, objs w !! key = Some c -> closed c = true) ->
  cleanup key w = (inr tt, w).
Proof.
  intros H. unfold cleanup. rewrite with_ctx_eq.
  destruct (objs w !! key) as [c|] eqn:E; [|reflexivity].
  rewrite (H c eq_refl). reflexivity.
Qed.

Lemma cleanup_open key w c :
  objs w !! key = Some c -> closed c = false ->
  cleanup key w
  = (inr tt, mk (trace w ++ [SetClosed key]
                 ++ (if timer_id c =? 0 then [] else [TimerDelete key (timer_id c)])
                 ++ [ContextsPop key])
                (contexts w ∖ {[key]})
                (alter (set_timer_id 0) key (alter set_closed_field key (objs w)))
                (queue w) (threads w)).
Proof.
  intros E Hc. unfold cleanup. rewrite with_ctx_eq, E, Hc.
  unfold upd_ctx. pym. cbn.
  destruct (timer_id c =? 0); cbn; rewrite <- !app_assoc; reflexivity.
Qed.

Lemma untouched_other k key l :
  k <> key ->
  Forall (fun c => c = SetClosed key \/ c = ContextsPop key
                   \/ (exists t, c = TimerDelete key t) \/ c = CallSoonThreadsafe
                   \/ c = CreateFuture \/ c = ContextsInsert key
                   \/ (exists t sp, c = TimerSettime t sp)
                   \/ (exists t, c = TimerCreate key t)) l ->
  untouched k l.
Proof.
  intros Hne HF. apply Z.eqb_neq in Hne.
  unfold untouched. induction HF as [|c l Hc _ IH]; [repeat split|].
  destruct IH as (I1 & I2 & I3 & I4).
  destruct Hc as [->|[->|[[t ->]|[->|[->|[->|[(t & sp & ->)|[t ->]]]]]]]]; cbn;
    rewrite ?Hne; cbn; repeat split; assumption.
Qed.

Lemma cleanup_inv key w :
  tc_inv_except key w -> exists w', cleanup key w = (inr tt, w') /\ tc_inv w'.
Proof.
  intros [Hcore Hon].
  destruct (objs w !! key) as [c|] eqn:E; [destruct (closed c) eqn:Hc|].
  - rewrite cleanup_skip by (intros c' E'; congruence).
    eexists; split; [reflexivity|]. intros k. split; [apply Hcore|].
    destruct (decide (k = key)) as [->|Hne]; [|auto].
    intros c' E' _ Hc'. congruence.
  - rewrite (cleanup_open key w c E Hc). eexists; split; [reflexivity|].
    intros k. destruct (decide (k = key)) as [->|Hne].
    + split.
      * destruct (Hcore key) as [Hcbd Hk]. rewrite E in Hk.
        destruct Hk as (K1 & K2 & K3 & K4 & K5 & K6 & K7 & K8).
        rewrite Hc in K1, K2, K3. destruct (K5 Hc) as (T1 & T2 & T3).
        unfold tc_core; cbn.
        rewrite !lookup_alter_eq, E. cbn.
        rewrite cbd_app, Hcbd. cbn. rewrite Z.eqb_refl. cbn. rewrite orb_true_r, cbd_true.
        rewrite !count_calls_app, K1, K2, K3. cbn. rewrite !Z.eqb_refl.
        apply Z.eqb_neq in T1. rewrite T1. cbn. rewrite !Z.eqb_refl.
        rewrite T2.
        repeat split; try (intros; discriminate); try lia; set_solver.
      * intros c' E'. cbn in E'. rewrite !lookup_alter_eq, E in E'. cbn in E'.
        injection E' as <-. cbn. discriminate.
    + split.
      * apply (tc_core_frame w _ k
                 ([SetClosed key]
                  ++ (if timer_id c =? 0 then [] else [TimerDelete key (timer_id c)])
                  ++ [ContextsPop key])); [reflexivity| | | |apply Hcore].
        -- apply (untouched_other k key); [exact Hne|].
           destruct (timer_id c =? 0); cbn; repeat (apply List.Forall_cons; [eauto 10|]); apply List.Forall_nil.
        -- cbn. rewrite !lookup_alter_ne by congruence. reflexivity.
        -- cbn. set_solver.
      * apply (tc_ondone_frame w); [|auto|auto].
        cbn. rewrite !lookup_alter_ne by congruence. reflexivity.
  - rewrite cleanup_skip by (intros c' E'; congruence).
    eexists; split; [reflexivity|]. intros k. split; [apply Hcore|].
    destruct (decide (k = key)) as [->|Hne]; [|auto].
    intros c' E'. congruence.
Qed.

End TimerCreateOps.

(* ------------------------------------------------------------------ *)
(** ** The timer_create backend: every step keeps the invariant *)

Lemma bind_seq {S A} (m : PyM S unit) (k : PyM S A) s :
  (m;; k) s = match m s with (inl e, s') => (inl e, s') | (inr _, s') => k s' end.
Proof. reflexivity. Qed.

Section TimerCreateSteps.
Import TimerCreate.

Lemma tc_inv_except_of key w : tc_inv w -> tc_inv_except key w.
Proof. intros H. split; intros k; [apply H|intros _; apply H]. Qed.

Lemma complete_eq key c f w :
  (upd_ctx key f;; schedule_callbacks key c) w
  = (inr tt, mk (trace w) (contexts w) (alter f key (objs w))
                (queue w ++ replicate (callbacks c) (OnDone key)) (threads w)).
Proof. unfold upd_ctx, schedule_callbacks. pym. reflexivity. Qed.

Lemma complete_inv key c f w :
  tc_inv w -> objs w !! key = Some c ->
  closed (f c) = closed c -> timer_id (f c) = timer_id c -> callbacks (f c) = callbacks c ->
  fut_done (future (f c)) = true ->
  resolutions (f c) = (match future (f c) with Finished => 1 | _ => 0 end)%nat ->
  tc_inv (mk (trace w) (contexts w) (alter f key (objs w))
             (queue w ++ replicate (callbacks c) (OnDone key)) (threads w)).
Proof.
  intros Hinv E Hcl Ht Hcb Hd Hr k. destruct (decide (k = key)) as [->|Hne].
  - destruct (Hinv key) as [[Hcbd Hk] _]. rewrite E in Hk. split.
    + unfold tc_core; cbn. rewrite lookup_alter_eq, E; cbn. split; [exact Hcbd|].
      rewrite Hcl, Ht, Hcb, Hr. destruct Hk as (K1&K2&K3&K4&K5&K6&K7&K8).
      repeat split; auto; tauto.
    + intros c' E' _ Hcl2. cbn in E'. rewrite lookup_alter_eq, E in E'.
      injection E' as <-. rewrite Hcl in Hcl2. cbn. apply elem_of_app; right.
      apply elem_of_replicate. split; [reflexivity|].
      destruct Hk as (K1&K2&K3&K4&K5&K6&K7&K8). destruct (K5 Hcl2) as (_&_&T). lia.
  - split.
    + apply (tc_core_frame w _ k []); [cbn; rewrite app_nil_r; reflexivity
        |repeat split|cbn; rewrite lookup_alter_ne by congruence; reflexivity
        |cbn; reflexivity|apply Hinv].
    + apply (tc_ondone_frame w); [cbn; rewrite lookup_alter_ne by congruence; reflexivity
        |cbn; intros; apply elem_of_app; left; assumption|apply Hinv].
Qed.

Lemma pending_resolutions w key c :
  tc_inv w -> objs w !! key = Some c -> fut_done (future c) = false -> resolutions c = 0%nat.
Proof.
  intros Hinv E Hd. destruct (Hinv key) as [[_ Hk] _]. rewrite E in Hk.
  destruct Hk as (_&_&_&_&_&_&_&K8). rewrite K8. destruct (future c); easy.
Qed.

Lemma set_result_inv key c w :
  tc_inv w -> objs w !! key = Some c -> fut_done (future c) = false ->
  exists w', set_result key w = (inr tt, w') /\ tc_inv w'.
Proof.
  intros Hinv E Hd. unfold set_result. rewrite with_ctx_eq, E, Hd.
  cbv iota beta. rewrite complete_eq. eexists; split; [reflexivity|].
  apply (complete_inv key c finish w); try reflexivity; auto.
  cbn. rewrite (pending_resolutions w key c); auto.
Qed.

Lemma cancel_inv key w :
  tc_inv w -> exists w', cancel key w = (inr tt, w') /\ tc_inv w'.
Proof.
  intros Hinv. unfold cancel. rewrite with_ctx_eq.
  destruct (objs w !! key) as [c|] eqn:E; [|eexists; split; [reflexivity|exact Hinv]].
  destruct (fut_done (future c)) eqn:Hd; [eexists; split; [reflexivity|exact Hinv]|].
  cbv iota beta. rewrite complete_eq. eexists; split; [reflexivity|].
  apply (complete_inv key c cancel_future w); try reflexivity; auto.
  cbn. rewrite (pending_resolutions w key c); auto.
Qed.

Lemma resolve_inv key w :
  tc_inv w -> exists w', resolve key w = (inr tt, w') /\ tc_inv w'.
Proof.
  intros Hinv. unfold resolve. rewrite with_ctx_eq.
  destruct (objs w !! key) as [c|] eqn:E; [|eexists; split; [reflexivity|exact Hinv]].
  destruct (closed c) eqn:Hc; [eexists; split; [reflexivity|exact Hinv]|].
  cbv iota beta. rewrite bind_seq.
  destruct (fut_done (future c)) eqn:Hd; cbn [negb].
  - apply cleanup_inv, tc_inv_except_of, Hinv.
  - destruct (set_result_inv key c w Hinv E Hd) as (w1 & -> & H1).
    apply cleanup_inv, tc_inv_except_of, H1.
Qed.


Lemma start_eq env key dt w :
  start env key dt w =
  if negb (timer_create_ret env =? 0) then (inl OSError, w)
  else
  let w2 := mk ((trace w ++ [TimerCreate key (timer_create_id env)])
                ++ [TimerSettime (timer_create_id env)
                      (timestamp_to_spec (py_timestamp env dt))])
               (contexts w) (alter (set_timer_id (timer_create_id env)) key (objs w))
               (queue w) (threads w) in
  if negb (timer_settime_ret env =? 0)
  then match cleanup key w2 with
       | (inl e, s) => (inl e, s)
       | (inr _, s) => (inl OSError, s)
       end
  else (inr tt, w2).
Proof.
  unfold start, upd_ctx. pym.
  destruct (negb (timer_create_ret env =? 0)); [reflexivity|].
  destruct (negb (timer_settime_ret env =? 0)); reflexivity.
Qed.

Lemma wait_until_eq env dt w :
  let key := context_id env in
  let w1 := mk ((trace w ++ [CreateFuture]) ++ [ContextsInsert key])
               ({[key]} ∪ contexts w) (<[key := new_ctx]> (objs w))
               (queue w) (threads w) in
  wait_until env dt w =
  match start env key dt w1 with
  | (inl e, s) => match cleanup key s with
                  | (inl e', s') => (inl e', s')
                  | (inr _, s') => (inl e, s')
                  end
  | (inr _, s) => (inr (ContextFuture key), mk (trace s) (contexts s)
                     (alter add_callback key (objs s)) (queue s) (threads s))
  end.
Proof.
  unfold wait_until, upd_ctx. pym. cbn.
  destruct (start _ _ _ _) as [[e|[]] s]; [|reflexivity].
  destruct (cleanup _ s) as [[e'|[]] s']; reflexivity.
Qed.


Lemma fresh_inv w key new c' cs os ts :
  tc_inv w -> objs w !! key = None ->
  (forall k, k <> key -> os !! k = objs w !! k) -> os !! key = Some c' ->
  (forall k, k <> key -> (k ∈ cs <-> k ∈ contexts w)) ->
  (forall k, k <> key -> untouched k new) ->
  closed_before_delete key false new = true ->
  count_calls (is_set_closed_of key) new = (if closed c' then 1 else 0)%nat ->
  count_calls (is_pop_of key) new = (if closed c' then 1 else 0)%nat ->
  count_calls (is_delete_of key) new
    = (if closed c' then count_calls (is_create_of key) new else 0)%nat ->
  (count_calls (is_create_of key) new <= 1)%nat ->
  (closed c' = false ->
   timer_id c' <> 0 /\ count_calls (is_create_of key) new = 1%nat /\ (1 <= callbacks c')%nat) ->
  (closed c' = true -> timer_id c' = 0) ->
  (key ∈ cs <-> closed c' = false) ->
  resolutions c' = (match future c' with Finished => 1 | _ => 0 end)%nat ->
  (fut_done (future c') = true -> closed c' = true) ->
  tc_inv (mk (trace w ++ new) cs os (queue w) ts).
Proof.
  intros Hinv Hn Hos Hkey Hcs Hun Hcbd N1 N2 N3 N4 N5 N6 N7 N8 Hdone k.
  destruct (decide (k = key)) as [->|Hne].
  - destruct (Hinv key) as [[Hc0 Hk] _]. rewrite Hn in Hk.
    destruct Hk as (O1&O2&O3&O4&O5). split.
    + unfold tc_core; cbn. rewrite Hkey, cbd_app, Hc0.
      pose proof (proj2 (existsb_count _ _) O1) as O1'. rewrite O1'. cbn. split; [exact Hcbd|].
      rewrite !count_calls_app, O1, O2, O3, O4; cbn.
      repeat split; auto; tauto.
    + intros c E Hd Hcl. cbn in E. rewrite Hkey in E. injection E as <-.
      rewrite (Hdone Hd) in Hcl. discriminate.
  - split.
    + apply (tc_core_frame w _ k new); [reflexivity|auto|cbn; auto|cbn; auto|apply Hinv].
    + apply (tc_ondone_frame w); [cbn; auto|cbn; auto|apply Hinv].
Qed.


Ltac tc_fresh_goals key :=
  first
  [ intros ?k ?Hk; rewrite ?lookup_alter_ne, ?lookup_insert_ne by congruence; reflexivity
  | rewrite ?lookup_alter_eq, ?lookup_insert_eq; reflexivity
  | intros ?k ?Hk; set_solver
  | let k := fresh "k" in let Hk := fresh "Hk" in
    intros k Hk; apply (untouched_other k key _ Hk);
    repeat (apply List.Forall_cons; [eauto 10|]); apply List.Forall_nil
  | cbn; rewrite ?Z.eqb_refl; cbn; first [reflexivity|lia|set_solver|idtac] ].

Lemma tc_wait_until_inv env dt w r w' :
  tc_inv w -> objs w !! context_id env = None -> timer_create_id env <> 0 ->
  wait_until env dt w = (r, w') -> tc_inv w'.
Proof.
  intros Hinv Hn Ht H. rewrite wait_until_eq in H. cbv zeta in H. rewrite start_eq in H.
  set (key := context_id env) in *. set (tid := timer_create_id env) in *.
  destruct (negb (timer_create_ret env =? 0)) eqn:R.
  - rewrite (cleanup_open key _ new_ctx) in H by (cbn; apply lookup_insert_eq || reflexivity).
    injection H as <- <-. cbn. rewrite <- !app_assoc.
    apply (fresh_inv w key _ (set_timer_id 0 (set_closed_field new_ctx))); tc_fresh_goals key.
  - cbv iota beta in H. destruct (negb (timer_settime_ret env =? 0)) eqn:St.
    + cbv zeta in H. rewrite (cleanup_open key _ (set_timer_id tid new_ctx)) in H
        by (cbn; rewrite ?lookup_alter_eq, ?lookup_insert_eq; reflexivity).
      cbv iota beta in H. rewrite cleanup_skip in H.
      2:{ intros c E. cbn in E. rewrite !lookup_alter_eq, lookup_insert_eq in E.
          injection E as <-. reflexivity. }
      injection H as <- <-. cbn. rewrite <- !app_assoc.
      assert (Hz : (tid =? 0) = false) by (apply Z.eqb_neq; exact Ht). rewrite Hz.
      apply (fresh_inv w key _ (set_timer_id 0 (set_closed_field (set_timer_id tid new_ctx))));
        tc_fresh_goals key.
    + cbv zeta iota beta in H. injection H as <- <-. cbn. rewrite <- !app_assoc.
      apply (fresh_inv w key _ (add_callback (set_timer_id tid new_ctx))); tc_fresh_goals key.
Qed.


Lemma tc_inv_post w k ts :
  tc_inv w ->
  tc_inv (mk (trace w ++ [CallSoonThreadsafe]) (contexts w) (objs w)
             (queue w ++ [Resolve k]) ts).
Proof.
  intros Hinv k'. split.
  - apply (tc_core_frame w _ k' [CallSoonThreadsafe]); [reflexivity|repeat split
      |reflexivity|reflexivity|apply Hinv].
  - apply (tc_ondone_frame w); [reflexivity|cbn; intros; apply elem_of_app; left; assumption
      |apply Hinv].
Qed.

Lemma tc_step_inv ev w :
  tc_inv w ->
  (ev = Notify 0 /\ step ev w = (inl TypeError, w))
  \/ exists w', step ev w = (inr tt, w') /\ tc_inv w'.
Proof.
  intros Hinv. destruct ev as [p|i|i|key|].
  - unfold step, timer_callback_lookup. destruct (Z.eqb_spec p 0) as [->|Hp].
    + left. split; reflexivity.
    + right. unfold set_threads. pym.
      destruct (decide (p ∈ contexts w)); (eexists; split; [reflexivity|exact Hinv]).
  - right. unfold step, on_timer_check, set_threads. pym.
    destruct (threads w !! i) as [[k|k]|]; try (eexists; split; [reflexivity|exact Hinv]).
    destruct (objs w !! k); (eexists; split; [reflexivity|exact Hinv]).
  - right. unfold step, set_threads, call_soon. pym.
    destruct (threads w !! i) as [[k|k]|]; try (eexists; split; [reflexivity|exact Hinv]).
    cbn. eexists; split; [reflexivity|]. apply tc_inv_post, Hinv.
  - right. apply cancel_inv, Hinv.
  - right. unfold step. pym.
    destruct (queue w) as [|it q] eqn:Q; [eexists; split; [reflexivity|exact Hinv]|].
    destruct it as [key|key].
    + apply resolve_inv. intros k. split; [apply Hinv|].
      apply (tc_ondone_frame w); [reflexivity| |apply Hinv].
      cbn. rewrite Q. intros Hin. apply elem_of_cons in Hin as [Hin|Hin]; [discriminate|exact Hin].
    + apply cleanup_inv. split; [intros k; apply Hinv|].
      intros k Hk. apply (tc_ondone_frame w); [reflexivity| |apply Hinv].
      cbn. rewrite Q. intros Hin. apply elem_of_cons in Hin as [Hin|Hin]; [congruence|exact Hin].
Qed.

Lemma tc_inv_empty : tc_inv empty.
Proof.
  intros k. split.
  - split; [reflexivity|]. cbn. rewrite lookup_empty. repeat split. set_solver.
  - intros c E. cbn in E. rewrite lookup_empty in E. discriminate.
Qed.

Lemma tc_reachable_inv w : reachable w -> tc_inv w.
Proof.
  induction 1 as [|env dt w r w' _ IH Hn Ht Hw|w ev r w' _ IH Hs].
  - apply tc_inv_empty.
  - eapply tc_wait_until_inv; eassumption.
  - destruct (tc_step_inv ev w IH) as [[_ E]|(w'' & E & Hi)];
      rewrite Hs in E; injection E as _ <-; [exact IH|exact Hi].
Qed.

End TimerCreateSteps.


Section DarwinOps.
Import Darwin.

Lemma cancel_timer_quiet w r w' :
  cancel_timer w = (r, w') ->
  r = inr tt
  /\ (exists new, trace w' = trace w ++ new
        /\ Forall (fun c => exists s, c = DispatchSourceCancel s) new)
  /\ darwin_held w' = darwin_held w.
Proof.
  unfold cancel_timer, set_ctx, dispatch_source_cancel. pym.
  destruct (ctx w) as [c|] eqn:E;
    [|intros [= <- <-]; split; [reflexivity|]; split; [exists []; rewrite app_nil_r; auto|reflexivity]].
  destruct (timer c) as [src|] eqn:T;
    [|intros [= <- <-]; split; [reflexivity|]; split; [exists []; rewrite app_nil_r; auto|reflexivity]].
  destruct (cancelled c);
    [intros [= <- <-]; split; [reflexivity|]; split; [exists []; rewrite app_nil_r; auto|reflexivity]|].
  intros [= <- <-]. split; [reflexivity|]. split.
  - exists [DispatchSourceCancel src]. cbn. split; [reflexivity|]. repeat constructor. eauto.
  - unfold darwin_held. cbn. rewrite E. cbn. rewrite T. reflexivity.
Qed.

Lemma quiet_no_release new :
  Forall (fun c => exists s, c = DispatchSourceCancel s) new ->
  count_calls is_source_release new = 0%nat.
Proof. induction 1 as [|c l [s ->] _ IH]; [reflexivity|exact IH]. Qed.

Lemma cancel_timer_no_release w r w' :
  cancel_timer w = (r, w') ->
  count_calls is_source_release (trace w') = count_calls is_source_release (trace w)
  /\ darwin_held w' = darwin_held w.
Proof.
  intros H. destruct (cancel_timer_quiet w r w' H) as (_ & (new & -> & F) & Hh).
  rewrite count_calls_app, (quiet_no_release new F). split; [lia|exact Hh].
Qed.

Lemma darwin_step_no_release ev w r w' :
  ev <> NativeCancel -> step ev w = (r, w') ->
  count_calls is_source_release (trace w') = count_calls is_source_release (trace w)
  /\ darwin_held w' = darwin_held w.
Proof.
  intros Hev. destruct ev; [| congruence | |].
  - unfold step, event_handler, context_from_ptr, call_soon. pym.
    destruct (cancel_handler_ran w); [intros [= _ <-]; auto|].
    destruct (ptr w =? 0); [intros [= _ <-]; auto|].
    destruct (ctx w) as [c|]; [|intros [= _ <-]; auto].
    destruct ((ptr w =? ptr w) && py_obj c); [|intros [= _ <-]; auto].
    destruct (fut_done (fut w)).
    + apply cancel_timer_no_release.
    + intros H. apply cancel_timer_no_release in H as [H1 H2]. cbn in H1, H2.
      rewrite H1, count_calls_app. cbn. split; [lia|exact H2].
  - unfold step, cancel. pym.
    destruct (fut_done (fut w)); intros [= _ <-]; auto.
  - unfold step, run_item, set_result. pym.
    destruct (queue w) as [|[|] q]; [intros [= _ <-]; auto| |].
    + destruct (fut_done (fut w)) eqn:D; cbn; rewrite ?D; cbn; rewrite ?D;
        intros [= _ <-]; auto.
    + intros H. apply cancel_timer_no_release in H as [H1 H2]. cbn in H1, H2. auto.
Qed.

End DarwinOps.

(* ------------------------------------------------------------------ *)
(** ** C3: terminal states *)

(** A closed context is out of the registry, and its guards hold. *)
Lemma tc_closed_absent w k c :
  tc_inv w -> TimerCreate.objs w !! k = Some c -> TimerCreate.closed c = true ->
  k ∉ TimerCreate.contexts w.
Proof.
  intros Hinv E Hc. destruct (Hinv k) as [[_ Hk] _]. rewrite E in Hk.
  destruct Hk as (_&_&_&_&_&_&K7&_). rewrite K7, Hc. discriminate.
Qed.

Lemma tc_notify_absent w p :
  p <> 0 -> p ∉ TimerCreate.contexts w ->
  TimerCreate.step (TimerCreate.Notify p) w = (inr tt, w).
Proof.
  intros Hp Hn. unfold TimerCreate.step, TimerCreate.timer_callback_lookup.
  apply Z.eqb_neq in Hp. rewrite Hp. pym. destruct (decide _); [contradiction|reflexivity].
Qed.

Lemma tc_resolve_closed w k c :
  TimerCreate.objs w !! k = Some c -> TimerCreate.closed c = true ->
  TimerCreate.resolve k w = (inr tt, w).
Proof.
  intros E Hc. unfold TimerCreate.resolve. rewrite with_ctx_eq, E, Hc. reflexivity.
Qed.

Lemma tc_on_timer_closed w k c :
  TimerCreate.objs w !! k = Some c -> TimerCreate.closed c = true ->
  TimerCreate.on_timer k w = (inr tt, w).
Proof.
  intros E Hc. unfold TimerCreate.on_timer, TimerCreate.on_timer_check. pym.
  rewrite E, Hc. reflexivity.
Qed.

Lemma tc_cleanup_closed w k c :
  TimerCreate.objs w !! k = Some c -> TimerCreate.closed c = true ->
  TimerCreate.cleanup k w = (inr tt, w).
Proof. intros E Hc. apply cleanup_skip. intros c' E'. congruence. Qed.


Lemma linux_reachable_run fd evs w :
  Linux.reachable fd w -> Linux.reachable fd (snd (Linux.run fd evs w)).
Proof.
  revert w. induction evs as [|ev evs IH]; intros w Hr; [exact Hr|].
  cbn [Linux.run]. unfold mbind, PyM_bind.
  destruct (Linux.step fd ev w) as [r w'] eqn:E.
  assert (Hr' : Linux.reachable fd w') by (eapply Linux.reach_step; eassumption).
  destruct r; [exact Hr'|apply IH, Hr'].
Qed.

Lemma linux_started_reachable : Linux.reachable 5 linux_started.
Proof.
  apply (Linux.reach_start 5 env_ok naive_dt). vm_compute. reflexivity.
Qed.

Lemma tc_reachable_run evs w :
  TimerCreate.reachable w -> TimerCreate.reachable (snd (TimerCreate.run evs w)).
Proof.
  revert w. induction evs as [|ev evs IH]; intros w Hr; [exact Hr|].
  cbn [TimerCreate.run]. unfold mbind, PyM_bind.
  destruct (TimerCreate.step ev w) as [r w'] eqn:E.
  assert (Hr' : TimerCreate.reachable w') by (eapply TimerCreate.reach_step; eassumption).
  destruct r; [exact Hr'|apply IH, Hr'].
Qed.

Lemma tc_started_reachable : TimerCreate.reachable tc_started.
Proof.
  apply (TimerCreate.reach_wait env_ok naive_dt TimerCreate.empty
           (fst (TimerCreate.wait_until env_ok naive_dt TimerCreate.empty))).
  - apply TimerCreate.reach_empty.
  - vm_compute. reflexivity.
  - vm_compute. discriminate.
  - vm_compute. reflexivity.
Qed.

(** Every failing Linux [wait_until] closes each descriptor it created. *)
Lemma linux_wait_failure_release env dt e w :
  Linux.wait_until env dt Linux.init = (inl e, w) ->
  count_calls is_os_close (Linux.trace w) = count_calls is_timerfd_create (Linux.trace w)
  /\ (count_calls is_timerfd_create (Linux.trace w) <= 1)%nat.
Proof.
  unfold Linux.wait_until, Linux.create_timerfd, Linux.program_timerfd,
    Linux.close_fd, Linux.set_closed, Linux.add_done_callback. pym.
  destruct (split_deadline (py_timestamp env dt)) as [sec ns].
  destruct (negb (loop_add_reader env && loop_remove_reader env));
    [intros [= _ <-]; cbn; lia|]. cbn.
  destruct (timerfd_create_ret env =? -1); cbn; [intros [= _ <-]; cbn; lia|].
  destruct (negb (timerfd_settime_ret env =? 0)); cbn; [intros [= _ <-]; cbn; lia|].
  destruct (add_reader_exc env); cbn; [intros [= _ <-]; cbn; lia|discriminate].
Qed.

(** A failing timer_create [wait_until] leaves its context closed. *)
Lemma tc_wait_failure_closed env dt w e w' :
  TimerCreate.wait_until env dt w = (inl e, w') ->
  exists c, TimerCreate.objs w' !! context_id env = Some c
    /\ TimerCreate.closed c = true.
Proof.
  intros H. rewrite wait_until_eq in H. cbv zeta in H. rewrite start_eq in H.
  set (key := context_id env) in *. set (tid := timer_create_id env) in *.
  destruct (negb (timer_create_ret env =? 0)) eqn:R.
  - rewrite (cleanup_open key _ TimerCreate.new_ctx) in H
      by (cbn; apply lookup_insert_eq || reflexivity).
    injection H as _ <-. cbn. rewrite !lookup_alter_eq, lookup_insert_eq.
    eexists; split; reflexivity.
  - cbv iota beta in H. destruct (negb (timer_settime_ret env =? 0)) eqn:St.
    + cbv zeta in H.
      rewrite (cleanup_open key _ (TimerCreate.set_timer_id tid TimerCreate.new_ctx)) in H
        by (cbn; rewrite ?lookup_alter_eq, ?lookup_insert_eq; reflexivity).
      cbv iota beta in H. rewrite cleanup_skip in H.
      2:{ intros c E. cbn in E. rewrite !lookup_alter_eq, lookup_insert_eq in E.
          injection E as <-. reflexivity. }
      injection H as _ <-. cbn. rewrite !lookup_alter_eq, lookup_insert_eq.
      eexists; split; reflexivity.
    + cbv zeta iota beta in H. discriminate.
Qed.

(** C3: once a wait has reached a terminal state (fired, cancelled or
    setup-failed), a further completion event is a no-op and the native
    resource is released once.

    Linux, in every world reachable from a returned wait: no event raises,
    the future is resolved at most once and the descriptor closed at most
    once; a further readiness on a done future leaves the future and its
    resolution count alone; once the loop has run the scheduled callbacks of
    a done (fired or cancelled) future, the descriptor is closed exactly
    once.  A [wait_until] that fails during setup closes exactly the
    descriptors it created (at most one).

    timer_create, in every reachable world: no event raises except a
    notification carrying a NULL token; each context is resolved at most
    once, its timer deleted at most once and its registry entry popped at
    most once; a closed context has been popped exactly once and its timer
    deleted exactly as often as it was created (at most once); on a closed
    context a further notification, [_resolve] or [cleanup] changes nothing;
    a done context whose [_on_done] has run is closed.  A [wait_until] that
    fails during setup leaves a reachable world in which its context is
    closed, so the clauses on closed contexts apply to it. *)
Theorem terminal_state_single_release :
  ((forall fd w, Linux.reachable fd w ->
     (forall ev, exists w', Linux.step fd ev w = (inr tt, w'))
     /\ (Linux.resolutions w <= 1)%nat
     /\ (count_calls is_os_close (Linux.trace w) <= 1)%nat
     /\ (fut_done (Linux.fut w) = true ->
         exists w', Linux.on_ready fd w = (inr tt, w')
           /\ Linux.fut w' = Linux.fut w
           /\ Linux.resolutions w' = Linux.resolutions w
           /\ (count_calls is_os_close (Linux.trace w') <= 1)%nat)
     /\ (fut_done (Linux.fut w) = true -> Linux.ready w = 0%nat ->
         count_calls is_os_close (Linux.trace w) = 1%nat))
   /\ (forall env dt e w, Linux.wait_until env dt Linux.init = (inl e, w) ->
       count_calls is_os_close (Linux.trace w)
       = count_calls is_timerfd_create (Linux.trace w)
       /\ (count_calls is_timerfd_create (Linux.trace w) <= 1)%nat))
  /\ ((forall w, TimerCreate.reachable w ->
     (forall ev, ev <> TimerCreate.Notify 0 ->
        exists w', TimerCreate.step ev w = (inr tt, w'))
     /\ forall k c, TimerCreate.objs w !! k = Some c ->
        (TimerCreate.resolutions c <= 1)%nat
        /\ (count_calls (is_delete_of k) (TimerCreate.trace w) <= 1)%nat
        /\ (count_calls (is_pop_of k) (TimerCreate.trace w) <= 1)%nat
        /\ (TimerCreate.closed c = true ->
            count_calls (is_pop_of k) (TimerCreate.trace w) = 1%nat
            /\ count_calls (is_delete_of k) (TimerCreate.trace w)
               = count_calls (is_create_of k) (TimerCreate.trace w)
            /\ (count_calls (is_create_of k) (TimerCreate.trace w) <= 1)%nat)
        /\ (TimerCreate.closed c = true -> k <> 0 ->
            TimerCreate.step (TimerCreate.Notify k) w = (inr tt, w)
            /\ TimerCreate.resolve k w = (inr tt, w)
            /\ TimerCreate.cleanup k w = (inr tt, w))
        /\ (fut_done (TimerCreate.future c) = true ->
            TimerCreate.OnDone k ∉ TimerCreate.queue w ->
            TimerCreate.closed c = true))
   /\ (forall env dt w e w',
       TimerCreate.reachable w -> TimerCreate.objs w !! context_id env = None ->
       timer_create_id env <> 0 ->
       TimerCreate.wait_until env dt w = (inl e, w') ->
       TimerCreate.reachable w'
       /\ exists c, TimerCreate.objs w' !! context_id env = Some c
            /\ TimerCreate.closed c = true)).
Proof.
  split; [split; [exact linux_single_release|exact linux_wait_failure_release]|].
  split.
  - intros w Hr. pose proof (tc_reachable_inv w Hr) as Hinv. split.
    + intros ev Hev. destruct (tc_step_inv ev w Hinv) as [[E _]|(w' & E & _)];
        [contradiction|eauto].
    + intros k c E. destruct (Hinv k) as [[_ Hk] Hon]. rewrite E in Hk.
      destruct Hk as (K1&K2&K3&K4&K5&K6&K7&K8).
      split; [rewrite K8; destruct (TimerCreate.future c); lia|].
      split; [rewrite K3; destruct (TimerCreate.closed c); lia|].
      split; [rewrite K2; destruct (TimerCreate.closed c); lia|].
      split; [intros Hc; rewrite K2, K3, Hc; split; [reflexivity|split; [reflexivity|exact K4]]|].
      split.
      * intros Hc Hk0. split; [apply tc_notify_absent; [exact Hk0|]|split].
        -- eapply tc_closed_absent; eauto.
        -- eapply tc_resolve_closed; eauto.
        -- eapply tc_cleanup_closed; eauto.
      * intros Hd Hq. destruct (TimerCreate.closed c) eqn:Hc; [reflexivity|].
        exfalso. exact (Hq (Hon c E Hd Hc)).
  - intros env dt w e w' Hr Hn Ht H. split.
    + eapply TimerCreate.reach_wait; eassumption.
    + eapply tc_wait_failure_closed; eassumption.
Qed.

(** The three terminal states on concrete waits: a Linux wait that fired, one
    that was cancelled, and one whose [add_reader] or [timerfd_settime]
    failed; a timer_create wait that fired, one that was cancelled, and one
    whose [timer_settime] failed. *)
Lemma terminal_state_single_release_witness :
  (* Linux, fired *)
  (fut_done (Linux.fut linux_fired) = true /\ Linux.ready linux_fired = 0%nat
   /\ Linux.resolutions linux_fired = 1%nat
   /\ count_calls is_os_close (Linux.trace linux_fired) = 1%nat
   /\ exists w', Linux.on_ready 5 linux_fired = (inr tt, w')
        /\ Linux.fut w' = Linux.fut linux_fired
        /\ Linux.resolutions w' = Linux.resolutions linux_fired
        /\ (count_calls is_os_close (Linux.trace w') <= 1)%nat)
  (* Linux, cancelled *)
  /\ (fut_done (Linux.fut linux_cancelled) = true /\ Linux.ready linux_cancelled = 0%nat
   /\ count_calls is_os_close (Linux.trace linux_cancelled) = 1%nat
   /\ exists w', Linux.on_ready 5 linux_cancelled = (inr tt, w')
        /\ Linux.fut w' = Linux.fut linux_cancelled
        /\ Linux.resolutions w' = Linux.resolutions linux_cancelled
        /\ (count_calls is_os_close (Linux.trace w') <= 1)%nat)
  (* Linux, setup failed at add_reader and at timerfd_settime *)
  /\ (count_calls is_timerfd_create
        (Linux.trace (snd (Linux.wait_until env_register_fails naive_dt Linux.init))) = 1%nat
   /\ count_calls is_os_close
        (Linux.trace (snd (Linux.wait_until env_register_fails naive_dt Linux.init)))
      = count_calls is_timerfd_create
        (Linux.trace (snd (Linux.wait_until env_register_fails naive_dt Linux.init))))
  /\ (count_calls is_timerfd_create
        (Linux.trace (snd (Linux.wait_until env_settime_fails naive_dt Linux.init))) = 1%nat
   /\ count_calls is_os_close
        (Linux.trace (snd (Linux.wait_until env_settime_fails naive_dt Linux.init)))
      = count_calls is_timerfd_create
        (Linux.trace (snd (Linux.wait_until env_settime_fails naive_dt Linux.init))))
  (* timer_create, fired *)
  /\ (TimerCreate.objs tc_fired !! 42 = Some ctx_fired
   /\ fut_done (TimerCreate.future ctx_fired) = true
   /\ (TimerCreate.OnDone 42 ∉ TimerCreate.queue tc_fired)
   /\ TimerCreate.closed ctx_fired = true
   /\ count_calls (is_create_of 42) (TimerCreate.trace tc_fired) = 1%nat
   /\ count_calls (is_pop_of 42) (TimerCreate.trace tc_fired) = 1%nat
   /\ count_calls (is_delete_of 42) (TimerCreate.trace tc_fired)
      = count_calls (is_create_of 42) (TimerCreate.trace tc_fired)
   /\ TimerCreate.step (TimerCreate.Notify 42) tc_fired = (inr tt, tc_fired)
   /\ TimerCreate.resolve 42 tc_fired = (inr tt, tc_fired)
   /\ TimerCreate.cleanup 42 tc_fired = (inr tt, tc_fired))
  (* timer_create, cancelled *)
  /\ (TimerCreate.objs tc_cancelled !! 42 = Some ctx_cancelled
   /\ fut_done (TimerCreate.future ctx_cancelled) = true
   /\ (TimerCreate.OnDone 42 ∉ TimerCreate.queue tc_cancelled)
   /\ TimerCreate.closed ctx_cancelled = true
   /\ count_calls (is_create_of 42) (TimerCreate.trace tc_cancelled) = 1%nat
   /\ count_calls (is_pop_of 42) (TimerCreate.trace tc_cancelled) = 1%nat
   /\ count_calls (is_delete_of 42) (TimerCreate.trace tc_cancelled)
      = count_calls (is_create_of 42) (TimerCreate.trace tc_cancelled)
   /\ TimerCreate.step (TimerCreate.Notify 42) tc_cancelled = (inr tt, tc_cancelled)
   /\ TimerCreate.resolve 42 tc_cancelled = (inr tt, tc_cancelled)
   /\ TimerCreate.cleanup 42 tc_cancelled = (inr tt, tc_cancelled))
  (* timer_create, setup failed *)
  /\ (fst (TimerCreate.wait_until env_settime_fails naive_dt TimerCreate.empty) = inl OSError
   /\ TimerCreate.reachable tc_setup_failed
   /\ TimerCreate.objs tc_setup_failed !! 42 = Some ctx_setup_failed
   /\ TimerCreate.closed ctx_setup_failed = true
   /\ count_calls (is_create_of 42) (TimerCreate.trace tc_setup_failed) = 1%nat
   /\ count_calls (is_pop_of 42) (TimerCreate.trace tc_setup_failed) = 1%nat
   /\ count_calls (is_delete_of 42) (TimerCreate.trace tc_setup_failed)
      = count_calls (is_create_of 42) (TimerCreate.trace tc_setup_failed)
   /\ TimerCreate.step (TimerCreate.Notify 42) tc_setup_failed = (inr tt, tc_setup_failed)
   /\ TimerCreate.resolve 42 tc_setup_failed = (inr tt, tc_setup_failed)
   /\ TimerCreate.cleanup 42 tc_setup_failed = (inr tt, tc_setup_failed)).
Proof.
  destruct terminal_state_single_release as [[HL HLf] [HT HTf]].
  assert (Hlf : Linux.reachable 5 linux_fired)
    by (apply linux_reachable_run, linux_started_reachable).
  assert (Hlc : Linux.reachable 5 linux_cancelled)
    by (apply linux_reachable_run, linux_started_reachable).
  assert (Htf : TimerCreate.reachable tc_fired)
    by (apply tc_reachable_run, tc_started_reachable).
  assert (Htc : TimerCreate.reachable tc_cancelled)
    by (apply tc_reachable_run, tc_started_reachable).
  assert (Hts : TimerCreate.reachable tc_setup_failed
                /\ exists c, TimerCreate.objs tc_setup_failed !! 42 = Some c
                     /\ TimerCreate.closed c = true).
  { apply (HTf env_settime_fails naive_dt TimerCreate.empty OSError);
      [apply TimerCreate.reach_empty|vm_compute; reflexivity|vm_compute; discriminate|].
    vm_compute. reflexivity. }
  destruct Hts as [Hts _].
  split.
  { destruct (HL 5 linux_fired Hlf) as (_ & _ & _ & H4 & H5).
    assert (Hd : fut_done (Linux.fut linux_fired) = true) by (vm_compute; reflexivity).
    assert (Hrd : Linux.ready linux_fired = 0%nat) by (vm_compute; reflexivity).
    split; [exact Hd|]. split; [exact Hrd|]. split; [vm_compute; reflexivity|].
    split; [exact (H5 Hd Hrd)|exact (H4 Hd)]. }
  split.
  { destruct (HL 5 linux_cancelled Hlc) as (_ & _ & _ & H4 & H5).
    assert (Hd : fut_done (Linux.fut linux_cancelled) = true) by (vm_compute; reflexivity).
    assert (Hrd : Linux.ready linux_cancelled = 0%nat) by (vm_compute; reflexivity).
    split; [exact Hd|]. split; [exact Hrd|].
    split; [exact (H5 Hd Hrd)|exact (H4 Hd)]. }
  split.
  { split; [vm_compute; reflexivity|].
    refine (proj1 (HLf env_register_fails naive_dt OSError _ _)).
    vm_compute. reflexivity. }
  split.
  { split; [vm_compute; reflexivity|].
    refine (proj1 (HLf env_settime_fails naive_dt OSError _ _)).
    vm_compute. reflexivity. }
  split.
  { assert (E : TimerCreate.objs tc_fired !! 42 = Some ctx_fired) by (vm_compute; reflexivity).
    destruct (proj2 (HT tc_fired Htf) 42 ctx_fired E) as (_ & _ & _ & Hc & Hn & Hd).
    assert (Hdn : fut_done (TimerCreate.future ctx_fired) = true) by reflexivity.
    assert (Hq : TimerCreate.OnDone 42 ∉ TimerCreate.queue tc_fired)
      by (vm_compute; apply not_elem_of_nil).
    pose proof (Hd Hdn Hq) as Hcl.
    destruct (Hc Hcl) as (P & D & _). assert (H42 : 42 <> 0) by lia. destruct (Hn Hcl H42) as (N1 & N2 & N3).
    split; [exact E|]. split; [exact Hdn|]. split; [exact Hq|]. split; [exact Hcl|].
    split; [vm_compute; reflexivity|]. split; [exact P|]. split; [exact D|].
    split; [exact N1|]. split; [exact N2|exact N3]. }
  split.
  { assert (E : TimerCreate.objs tc_cancelled !! 42 = Some ctx_cancelled)
      by (vm_compute; reflexivity).
    destruct (proj2 (HT tc_cancelled Htc) 42 ctx_cancelled E) as (_ & _ & _ & Hc & Hn & Hd).
    assert (Hdn : fut_done (TimerCreate.future ctx_cancelled) = true) by reflexivity.
    assert (Hq : TimerCreate.OnDone 42 ∉ TimerCreate.queue tc_cancelled)
      by (vm_compute; apply not_elem_of_nil).
    pose proof (Hd Hdn Hq) as Hcl.
    destruct (Hc Hcl) as (P & D & _). assert (H42 : 42 <> 0) by lia. destruct (Hn Hcl H42) as (N1 & N2 & N3).
    split; [exact E|]. split; [exact Hdn|]. split; [exact Hq|]. split; [exact Hcl|].
    split; [vm_compute; reflexivity|]. split; [exact P|]. split; [exact D|].
    split; [exact N1|]. split; [exact N2|exact N3]. }
  { assert (E : TimerCreate.objs tc_setup_failed !! 42 = Some ctx_setup_failed)
      by (vm_compute; reflexivity).
    destruct (proj2 (HT tc_setup_failed Hts) 42 ctx_setup_failed E) as (_ & _ & _ & Hc & Hn & _).
    assert (Hcl : TimerCreate.closed ctx_setup_failed = true) by reflexivity.
    destruct (Hc Hcl) as (P & D & _). assert (H42 : 42 <> 0) by lia. destruct (Hn Hcl H42) as (N1 & N2 & N3).
    split; [vm_compute; reflexivity|]. split; [exact Hts|]. split; [exact E|].
    split; [exact Hcl|]. split; [vm_compute; reflexivity|].
    split; [exact P|]. split; [exact D|]. split; [exact N1|]. split; [exact N2|exact N3]. }
Defined.

(* ------------------------------------------------------------------ *)
(** ** C4: the Darwin backend releases only in the cancel handler *)

(** C4: in the Darwin backend, [cancel_timer] only adds
    [dispatch_source_cancel] calls and keeps the timer source and the context
    cell; no step other than the run of the cancel handler ([NativeCancel])
    adds a [dispatch_release] or drops the context cell, or changes what the
    context holds; once the cancel handler has run, libdispatch delivers no
    event: a [NativeEvent] changes nothing. *)
Theorem darwin_release_only_in_cancel_handler :
  (forall w r w', Darwin.cancel_timer w = (r, w') ->
     r = inr tt
     /\ (exists new, Darwin.trace w' = Darwin.trace w ++ new
          /\ Forall (fun c => exists s, c = DispatchSourceCancel s) new)
     /\ darwin_held w' = darwin_held w)
  /\ (forall ev w r w', ev <> Darwin.NativeCancel -> Darwin.step ev w = (r, w') ->
     count_calls is_source_release (Darwin.trace w')
       = count_calls is_source_release (Darwin.trace w)
     /\ darwin_held w' = darwin_held w)
  /\ (forall w, Darwin.cancel_handler_ran w = true ->
     Darwin.step Darwin.NativeEvent w = (inr tt, w)).
Proof.
  split; [exact cancel_timer_quiet|]. split; [exact darwin_step_no_release|].
  intros w H. unfold Darwin.step. pym. rewrite H. reflexivity.
Qed.


Lemma darwin_release_only_in_cancel_handler_witness :
  (fst (Darwin.cancel_timer darwin_armed) = inr tt
   /\ (exists new, Darwin.trace (snd (Darwin.cancel_timer darwin_armed))
                   = Darwin.trace darwin_armed ++ new
        /\ Forall (fun c => exists s, c = DispatchSourceCancel s) new)
   /\ darwin_held (snd (Darwin.cancel_timer darwin_armed)) = darwin_held darwin_armed)
  /\ (count_calls is_source_release
        (Darwin.trace (snd (Darwin.step Darwin.NativeEvent darwin_armed)))
      = count_calls is_source_release (Darwin.trace darwin_armed)
      /\ darwin_held (snd (Darwin.step Darwin.NativeEvent darwin_armed))
         = darwin_held darwin_armed)
  /\ Darwin.step Darwin.NativeEvent darwin_released = (inr tt, darwin_released).
Proof.
  split; [|split].
  - apply (proj1 darwin_release_only_in_cancel_handler darwin_armed).
    vm_compute. reflexivity.
  - apply (proj1 (proj2 darwin_release_only_in_cancel_handler) Darwin.NativeEvent
             darwin_armed (fst (Darwin.step Darwin.NativeEvent darwin_armed))).
    + discriminate.
    + vm_compute. reflexivity.
  - apply (proj2 (proj2 darwin_release_only_in_cancel_handler) darwin_released).
    vm_compute. reflexivity.
Defined.

(* ------------------------------------------------------------------ *)
(** ** C5: naive datetimes *)

(** C5 counterexample: the public [wait_until] on Linux accepts the naive
    [datetime(2024, 1, 1, 9, 0)] and returns a future. *)
Lemma naive_datetime_accepted :
  tzinfo naive_dt = None
  /\ fst (wait_until (select_impl "linux") env_ok naive_dt) = Returned (LoopFuture 5).
Proof. split; vm_compute; reflexivity. Qed.

(** C5, as the code behaves: there is no timezone check; a naive datetime is
    read as local time, exactly as the aware datetime [dt.astimezone()]
    carrying the local UTC offset. *)
Theorem naive_datetime_read_as_local impl env dt :
  tzinfo dt = None -> wait_until impl env dt = wait_until impl env (as_local env dt).
Proof. destruct dt as [wl tz]. cbn. intros ->. reflexivity. Qed.

Lemma naive_datetime_read_as_local_witness :
  tzinfo naive_dt = None
  /\ wait_until (select_impl "linux") env_ok naive_dt
     = wait_until (select_impl "linux") env_ok (as_local env_ok naive_dt).
Proof.
  split; [reflexivity|]. apply naive_datetime_read_as_local. reflexivity.
Defined.

(* ------------------------------------------------------------------ *)
(** ** C6: setup failures *)

Section TimerCreateSetup.
Import TimerCreate.

Lemma tc_setup_failure env dt w :
  context_id env ∉ contexts w -> timer_create_id env <> 0 ->
  timer_create_ret env <> 0 \/ timer_settime_ret env <> 0 ->
  exists w' new, wait_until env dt w = (inl OSError, w')
    /\ contexts w' = contexts w
    /\ trace w' = trace w ++ new
    /\ count_calls is_timer_create new = count_calls is_timer_delete new.
Proof.
  intros Hn Ht Hf. rewrite wait_until_eq. cbv zeta. rewrite start_eq.
  set (key := context_id env) in *. set (tid := timer_create_id env) in *.
  destruct (Z.eqb_spec (timer_create_ret env) 0) as [R|R]; cbn [negb].
  - destruct Hf as [Hf|Hf]; [contradiction|].
    apply Z.eqb_neq in Hf. rewrite Hf. cbn [negb].
    rewrite (cleanup_open key _ (set_timer_id tid new_ctx))
      by (cbn; rewrite ?lookup_alter_eq, ?lookup_insert_eq; reflexivity).
    cbv iota beta. rewrite cleanup_skip.
    2:{ intros c E. cbn in E. rewrite !lookup_alter_eq, lookup_insert_eq in E.
        injection E as <-. reflexivity. }
    assert (Hz : (tid =? 0) = false) by (apply Z.eqb_neq; exact Ht).
    cbn. rewrite Hz. eexists _, _. split; [reflexivity|]. split; [apply leibniz_equiv; set_solver|].
    split; [rewrite <- !app_assoc; reflexivity|]. reflexivity.
  - rewrite (cleanup_open key _ new_ctx) by (cbn; apply lookup_insert_eq || reflexivity).
    eexists _, _. split; [reflexivity|]. split; [cbn; apply leibniz_equiv; set_solver|].
    split; [cbn; rewrite <- !app_assoc; reflexivity|]. reflexivity.
Qed.

End TimerCreateSetup.

(** C6: when creating or arming the native timer fails, [wait_until] raises
    before any future is returned and releases what it created: Linux closes
    as many descriptors as it created, Windows closes as many handles as it
    created, timer_create deletes as many timers as it created and leaves the
    registry as it found it, Darwin creates no source. *)
Theorem setup_failure_releases_before_raise :
  (forall env dt, timerfd_create_ret env = -1 \/ timerfd_settime_ret env <> 0 ->
     exists e w, Linux.wait_until env dt Linux.init = (inl e, w)
       /\ count_calls is_timerfd_create (Linux.trace w)
          = count_calls is_os_close (Linux.trace w))
  /\ (forall env dt, create_waitable_ret env = 0 \/ set_waitable_ret env = false ->
     exists e tr, Windows.wait_until env dt [] = (inl e, tr)
       /\ count_calls is_create_waitable tr = count_calls is_close_handle tr)
  /\ (forall env dt w, context_id env ∉ TimerCreate.contexts w -> timer_create_id env <> 0 ->
     timer_create_ret env <> 0 \/ timer_settime_ret env <> 0 ->
     exists w' new, TimerCreate.wait_until env dt w = (inl OSError, w')
       /\ TimerCreate.contexts w' = TimerCreate.contexts w
       /\ TimerCreate.trace w' = TimerCreate.trace w ++ new
       /\ count_calls is_timer_create new = count_calls is_timer_delete new)
  /\ (forall env dt, global_queue_ret env = 0 \/ dispatch_source_create_ret env = 0 ->
     exists e w, Darwin.wait_until env dt Darwin.init = (inl e, w)
       /\ count_calls is_source_create (Darwin.trace w) = 0%nat).
Proof.
  split; [exact linux_setup_failure|]. split; [exact windows_setup_failure|].
  split; [exact tc_setup_failure|exact darwin_setup_failure].
Qed.


Lemma setup_failure_releases_before_raise_witness :
  (exists e w, Linux.wait_until env_settime_fails naive_dt Linux.init = (inl e, w)
     /\ count_calls is_timerfd_create (Linux.trace w)
        = count_calls is_os_close (Linux.trace w))
  /\ (exists e tr, Windows.wait_until env_settime_fails naive_dt [] = (inl e, tr)
     /\ count_calls is_create_waitable tr = count_calls is_close_handle tr)
  /\ (exists w' new, TimerCreate.wait_until env_settime_fails naive_dt TimerCreate.empty
                     = (inl OSError, w')
     /\ TimerCreate.contexts w' = TimerCreate.contexts TimerCreate.empty
     /\ TimerCreate.trace w' = TimerCreate.trace TimerCreate.empty ++ new
     /\ count_calls is_timer_create new = count_calls is_timer_delete new)
  /\ (exists e w, Darwin.wait_until env_settime_fails naive_dt Darwin.init = (inl e, w)
     /\ count_calls is_source_create (Darwin.trace w) = 0%nat).
Proof.
  destruct setup_failure_releases_before_raise as (HL & HW & HT & HD).
  split; [apply HL; right; vm_compute; discriminate|].
  split; [apply HW; right; reflexivity|].
  split; [apply HT; [apply not_elem_of_empty|vm_compute; discriminate|right; vm_compute; discriminate]|].
  apply HD. right. reflexivity.
Defined.

(* ------------------------------------------------------------------ *)
(** ** C7: the [_closed] gate of the timer_create backend *)

(** C7: in every reachable world of the timer_create backend and for every
    context: [_closed] is set ([SetClosed]) before any [timer_delete] of the
    context in the trace; [timer_delete] is called at most once; [_closed] is
    set once and the registry entry popped once iff the context is closed,
    and the key is in [_contexts] iff the context is open; on a closed
    context [_on_timer], [_resolve] and [cleanup] change nothing. *)
Theorem timer_create_closed_flag_gate w :
  TimerCreate.reachable w ->
  forall k c, TimerCreate.objs w !! k = Some c ->
  closed_before_delete k false (TimerCreate.trace w) = true
  /\ (count_calls (is_delete_of k) (TimerCreate.trace w) <= 1)%nat
  /\ count_calls (is_set_closed_of k) (TimerCreate.trace w)
     = (if TimerCreate.closed c then 1 else 0)%nat
  /\ count_calls (is_pop_of k) (TimerCreate.trace w)
     = (if TimerCreate.closed c then 1 else 0)%nat
  /\ (k ∈ TimerCreate.contexts w <-> TimerCreate.closed c = false)
  /\ (TimerCreate.closed c = true ->
      TimerCreate.on_timer k w = (inr tt, w)
      /\ TimerCreate.resolve k w = (inr tt, w)
      /\ TimerCreate.cleanup k w = (inr tt, w)).
Proof.
  intros Hr k c E. destruct (tc_reachable_inv w Hr k) as [[Hcbd Hk] _].
  rewrite E in Hk. destruct Hk as (K1&K2&K3&K4&K5&K6&K7&K8).
  split; [exact Hcbd|]. split; [rewrite K3; destruct (TimerCreate.closed c); lia|].
  split; [exact K1|]. split; [exact K2|]. split; [exact K7|].
  intros Hc. split; [eapply tc_on_timer_closed; eauto|].
  split; [eapply tc_resolve_closed; eauto|eapply tc_cleanup_closed; eauto].
Qed.





Lemma timer_create_closed_flag_gate_witness :
  closed_before_delete 42 false (TimerCreate.trace tc_fired) = true
  /\ (count_calls (is_delete_of 42) (TimerCreate.trace tc_fired) <= 1)%nat
  /\ count_calls (is_set_closed_of 42) (TimerCreate.trace tc_fired)
     = (if TimerCreate.closed ctx_fired then 1 else 0)%nat
  /\ count_calls (is_pop_of 42) (TimerCreate.trace tc_fired)
     = (if TimerCreate.closed ctx_fired then 1 else 0)%nat
  /\ (42 ∈ TimerCreate.contexts tc_fired <-> TimerCreate.closed ctx_fired = false)
  /\ (TimerCreate.closed ctx_fired = true ->
      TimerCreate.on_timer 42 tc_fired = (inr tt, tc_fired)
      /\ TimerCreate.resolve 42 tc_fired = (inr tt, tc_fired)
      /\ TimerCreate.cleanup 42 tc_fired = (inr tt, tc_fired)).
Proof.
  apply (timer_create_closed_flag_gate tc_fired).
  - apply tc_reachable_run, tc_started_reachable.
  - vm_compute. reflexivity.
Defined.

(* ------------------------------------------------------------------ *)
(** ** C8: the platform selector *)

(** C8 counterexample: on darwin, and on another POSIX system such as
    FreeBSD, the selector picks no backend and [wait_until] raises
    [NotImplementedError], although the Darwin and timer_create backends
    would return a future there. *)
Lemma darwin_backend_never_selected :
  select_impl "darwin" = None
  /\ fst (wait_until (select_impl "darwin") env_ok naive_dt) = Raised NotImplementedError
  /\ fst (Darwin.wait_until env_ok naive_dt Darwin.init) = inr (DispatchFuture 3)
  /\ select_impl "freebsd14" = None
  /\ fst (TimerCreate.wait_until env_ok naive_dt TimerCreate.empty) = inr (ContextFuture 42).
Proof. repeat split; vm_compute; reflexivity. Qed.

(** C8, as the code behaves: [_impl] is the Linux backend on platforms
    starting with "linux", the Windows backend on "win32" and "cygwin", and
    none otherwise; with none the public [wait_until] raises
    [NotImplementedError] and makes no call, otherwise it returns what the
    chosen backend returns. *)
Theorem platform_selector_dispatch :
  (forall p, select_impl p = None <->
     String.prefix "linux" p = false /\ String.prefix "win32" p = false
     /\ String.prefix "cygwin" p = false)
  /\ (forall p, String.prefix "linux" p = true -> select_impl p = Some LinuxBackend)
  /\ (forall p, String.prefix "linux" p = false ->
      String.prefix "win32" p = true \/ String.prefix "cygwin" p = true ->
      select_impl p = Some WindowsBackend)
  /\ (forall env dt, wait_until None env dt = (Raised NotImplementedError, []))
  /\ (forall env dt, fst (wait_until (Some LinuxBackend) env dt)
                     = outcome (fst (Linux.wait_until env dt Linux.init)))
  /\ (forall env dt, fst (wait_until (Some WindowsBackend) env dt)
                     = outcome (fst (Windows.wait_until env dt []))).
Proof.
  split; [|split; [|split; [|split; [|split]]]].
  - intros p. unfold select_impl.
    destruct (String.prefix "linux" p), (String.prefix "win32" p), (String.prefix "cygwin" p);
      cbn; split; intros H; try discriminate; try reflexivity; intuition congruence.
  - intros p H. unfold select_impl. rewrite H. reflexivity.
  - intros p H1 H2. unfold select_impl. rewrite H1.
    destruct H2 as [H2|H2]; rewrite H2; [reflexivity|].
    rewrite orb_true_r. reflexivity.
  - reflexivity.
  - intros env dt. cbn. destruct (Linux.wait_until env dt Linux.init). reflexivity.
  - intros env dt. cbn. destruct (Windows.wait_until env dt []). reflexivity.
Qed.

Lemma platform_selector_dispatch_witness :
  select_impl "linux" = Some LinuxBackend /\ select_impl "cygwin" = Some WindowsBackend.
Proof.
  split.
  - apply (proj1 (proj2 platform_selector_dispatch) "linux"). reflexivity.
  - apply (proj1 (proj2 (proj2 platform_selector_dispatch)) "cygwin");
      [reflexivity|right; reflexivity].
Defined.

(* ------------------------------------------------------------------ *)
(** ** C9: tokens absent from the registry *)

(** C9: a timer_create notification whose token is not in [_contexts]
    returns and changes nothing, the state of every other wait included.
    Such a token is never NULL: every [sival_ptr] the module hands to
    [timer_create] is [id()] of a live [_TimerContext].  The Darwin backend
    keeps no registry: libdispatch hands the handlers the context pointer
    set for their own source; the handlers called with a NULL pointer return
    and change nothing. *)
Theorem stray_token_swallowed :
  (forall w p, p <> 0 -> p ∉ TimerCreate.contexts w ->
     TimerCreate.step (TimerCreate.Notify p) w = (inr tt, w))
  /\ (forall w, Darwin.event_handler 0 w = (inr tt, w)
               /\ Darwin.cancel_handler 0 w = (inr tt, w)).
Proof.
  split; [exact tc_notify_absent|].
  intros w. unfold Darwin.event_handler, Darwin.cancel_handler, Darwin.context_from_ptr.
  pym. split; reflexivity.
Qed.

(** A late notification for the wait of [tc_fired], already torn down, and
    a token that was never registered, while the wait of [tc_started] is
    pending. *)
Lemma stray_token_swallowed_witness :
  TimerCreate.step (TimerCreate.Notify 42) tc_fired = (inr tt, tc_fired)
  /\ TimerCreate.step (TimerCreate.Notify 7) tc_started = (inr tt, tc_started).
Proof.
  split.
  - apply (proj1 stray_token_swallowed tc_fired 42).
    + lia.
    + vm_compute. intros H. discriminate H.
  - apply (proj1 stray_token_swallowed tc_started 7).
    + lia.
    + vm_compute. intros H. discriminate H.
Defined.

(* ------------------------------------------------------------------ *)
(** ** Further properties: the deadline converters *)







(* ------------------------------------------------------------------ *)
(** ** Further properties: the Linux and Windows waits *)

(** When [loop.add_reader] raises, the Linux [wait_until] removes the
    reader, closes the descriptor and re-raises; the closure's [closed] flag
    is set, so the descriptor cannot be closed again. *)
Lemma linux_add_reader_failure env dt e :
  loop_add_reader env = true -> loop_remove_reader env = true ->
  timerfd_create_ret env <> -1 -> timerfd_settime_ret env = 0 ->
  add_reader_exc env = Some e ->
  exists w, Linux.wait_until env dt Linux.init = (inl e, w)
    /\ Linux.closed w = true
    /\ Linux.trace w
       = [TimerfdCreate (timerfd_create_ret env);
          TimerfdSettime (timerfd_create_ret env)
                         (timestamp_to_spec (py_timestamp env dt));
          CreateFuture; AddReader (timerfd_create_ret env);
          RemoveReader (timerfd_create_ret env); OsClose (timerfd_create_ret env)].
Proof.
  intros Ha Hr Hc Hs He.
  unfold Linux.wait_until, Linux.create_timerfd, Linux.program_timerfd,
    Linux.close_fd, Linux.set_closed, timestamp_to_spec. pym.
  destruct (split_deadline (py_timestamp env dt)) as [sec ns].
  rewrite Ha, Hr. cbn.
  apply Z.eqb_neq in Hc. rewrite Hc, Hs, He. cbn.
  eexists. split; [reflexivity|]. split; reflexivity.
Qed.

Lemma linux_add_reader_failure_witness :
  loop_add_reader env_register_fails = true
  /\ loop_remove_reader env_register_fails = true
  /\ timerfd_create_ret env_register_fails <> -1
  /\ timerfd_settime_ret env_register_fails = 0
  /\ add_reader_exc env_register_fails = Some OSError
  /\ exists w, Linux.wait_until env_register_fails naive_dt Linux.init = (inl OSError, w)
    /\ Linux.closed w = true
    /\ Linux.trace w
       = [TimerfdCreate 5;
          TimerfdSettime 5 (timestamp_to_spec (py_timestamp env_register_fails naive_dt));
          CreateFuture; AddReader 5; RemoveReader 5; OsClose 5].
Proof.
  do 5 (split; [vm_compute; first [reflexivity|discriminate]|]).
  apply (linux_add_reader_failure env_register_fails naive_dt OSError);
    vm_compute; first [reflexivity|discriminate].
Defined.

(** On a pending Linux wait, readiness of the descriptor resolves the future
    once and closes the descriptor: [remove_reader], then [os.close]. *)
Lemma linux_ready_releases fd w :
  Linux.reachable fd w -> Linux.fut w = Pending ->
  exists w', Linux.step fd Linux.Ready w = (inr tt, w')
    /\ Linux.fut w' = Finished /\ Linux.resolutions w' = 1%nat
    /\ Linux.closed w' = true
    /\ Linux.trace w' = Linux.trace w ++ [RemoveReader fd; OsClose fd]
    /\ count_calls is_os_close (Linux.trace w') = 1%nat.
Proof.
  intros Hr Hp. pose proof (linux_reachable_inv fd w Hr) as Hi.
  destruct w as [tr f r cl cb rd].
  unfold linux_inv in Hi; cbn in *. destruct Hi as (Hc & Hres & Hcb & Hcl & Hpp & Hq).
  subst f. destruct cl; [specialize (Hcl eq_refl); discriminate|].
  unfold Linux.step, Linux.on_ready, Linux.set_result, Linux.close_fd,
    Linux.set_closed. pym. cbn.
  eexists. split; [reflexivity|]. cbn.
  rewrite <- app_assoc. cbn. rewrite !count_calls_app. cbn. rewrite Hc, Hres.
  repeat split.
Qed.


Lemma linux_ready_releases_witness :
  Linux.fut linux_started = Pending /\
  exists w', Linux.step 5 Linux.Ready linux_started = (inr tt, w')
    /\ Linux.fut w' = Finished /\ Linux.resolutions w' = 1%nat
    /\ Linux.closed w' = true
    /\ Linux.trace w' = Linux.trace linux_started ++ [RemoveReader 5; OsClose 5]
    /\ count_calls is_os_close (Linux.trace w') = 1%nat.
Proof.
  split; [vm_compute; reflexivity|].
  apply linux_ready_releases; [apply linux_started_reachable|vm_compute; reflexivity].
Defined.

(** Cancelling a pending Linux wait, then letting the loop run the
    scheduled done-callback, leaves the future cancelled and unresolved and
    closes the descriptor once. *)
Lemma linux_cancel_releases fd w :
  Linux.reachable fd w -> Linux.fut w = Pending ->
  exists w', Linux.run fd [Linux.Cancel; Linux.RunCallback] w = (inr tt, w')
    /\ Linux.fut w' = Cancelled /\ Linux.resolutions w' = 0%nat
    /\ Linux.closed w' = true
    /\ Linux.trace w' = Linux.trace w ++ [RemoveReader fd; OsClose fd]
    /\ count_calls is_os_close (Linux.trace w') = 1%nat.
Proof.
  intros Hr Hp. pose proof (linux_reachable_inv fd w Hr) as Hi.
  destruct w as [tr f r cl cb rd].
  unfold linux_inv in Hi; cbn in *. destruct Hi as (Hc & Hres & Hcb & Hcl & Hpp & Hq).
  subst f. destruct cl; [specialize (Hcl eq_refl); discriminate|].
  specialize (Hpp eq_refl). subst rd cb.
  unfold Linux.run, Linux.step, Linux.cancel, Linux.cleanup_callback,
    Linux.close_fd, Linux.set_closed. pym. cbn.
  eexists. split; [reflexivity|]. cbn.
  rewrite <- app_assoc. cbn. rewrite !count_calls_app. cbn. rewrite Hc, Hres.
  repeat split.
Qed.

Lemma linux_cancel_releases_witness :
  Linux.fut linux_started = Pending /\
  exists w', Linux.run 5 [Linux.Cancel; Linux.RunCallback] linux_started = (inr tt, w')
    /\ Linux.fut w' = Cancelled /\ Linux.resolutions w' = 0%nat
    /\ Linux.closed w' = true
    /\ Linux.trace w' = Linux.trace linux_started ++ [RemoveReader 5; OsClose 5]
    /\ count_calls is_os_close (Linux.trace w') = 1%nat.
Proof.
  split; [vm_compute; reflexivity|].
  apply linux_cancel_releases; [apply linux_started_reachable|vm_compute; reflexivity].
Defined.

(** When [proactor.wait_for_handle] raises, the Windows [wait_until]
    propagates the exception without closing the waitable timer it created
    and armed: no [CloseHandle] is made. *)
Lemma windows_wait_failure_leaks_handle env dt e :
  loop_proactor env = true -> create_waitable_ret env <> 0 ->
  set_waitable_ret env = true -> wait_for_handle_exc env = Some e ->
  Windows.wait_until env dt []
  = (inl e, [CreateWaitableTimerW (create_waitable_ret env);
             SetWaitableTimer (create_waitable_ret env)
                              (unix_to_windows_ticks (py_timestamp env dt));
             WaitForHandle (create_waitable_ret env)]).
Proof.
  intros Hp Hc Hs He. unfold Windows.wait_until. pym.
  rewrite Hp. apply Z.eqb_neq in Hc. rewrite Hc, Hs, He. reflexivity.
Qed.

Lemma windows_wait_failure_leaks_handle_witness :
  loop_proactor env_register_fails = true
  /\ create_waitable_ret env_register_fails <> 0
  /\ set_waitable_ret env_register_fails = true
  /\ wait_for_handle_exc env_register_fails = Some OSError
  /\ Windows.wait_until env_register_fails naive_dt []
     = (inl OSError,
        [CreateWaitableTimerW 7;
         SetWaitableTimer 7 (unix_to_windows_ticks (py_timestamp env_register_fails naive_dt));
         WaitForHandle 7]).
Proof.
  do 4 (split; [vm_compute; first [reflexivity|discriminate]|]).
  apply (windows_wait_failure_leaks_handle env_register_fails naive_dt OSError);
    vm_compute; first [reflexivity|discriminate].
Defined.

(* ------------------------------------------------------------------ *)
(** ** Further properties: the timer_create waits *)

Section TimerCreatePaths.
Import TimerCreate.

Lemma tc_open_facts w k c :
  reachable w -> objs w !! k = Some c -> closed c = false ->
  timer_id c <> 0 /\ (1 <= callbacks c)%nat /\ k ∈ contexts w
  /\ count_calls (is_delete_of k) (trace w) = 0%nat
  /\ count_calls (is_set_closed_of k) (trace w) = 0%nat
  /\ count_calls (is_pop_of k) (trace w) = 0%nat.
Proof.
  intros Hr E Hc. destruct (tc_reachable_inv w Hr k) as [[_ Hk] _].
  rewrite E in Hk. destruct Hk as (K1&K2&K3&K4&K5&K6&K7&K8).
  rewrite Hc in K1, K2, K3. destruct (K5 Hc) as (T1&T2&T3).
  repeat split; try assumption. apply K7, Hc.
Qed.

(** Cancelling a pending, open timer_create wait whose loop queue is empty,
    then letting the loop run its next callback ([_on_done]), cancels the
    future, marks the context closed, deletes its timer once and removes it
    from [_contexts]. *)
Lemma tc_cancel_then_cleanup w k c :
  reachable w -> objs w !! k = Some c -> closed c = false ->
  future c = Pending -> queue w = [] ->
  exists w' c', run [UserCancel k; LoopRun] w = (inr tt, w')
    /\ objs w' !! k = Some c'
    /\ future c' = Cancelled /\ closed c' = true /\ timer_id c' = 0
    /\ (k ∉ contexts w')
    /\ trace w' = trace w ++ [SetClosed k; TimerDelete k (timer_id c); ContextsPop k]
    /\ count_calls (is_delete_of k) (trace w') = 1%nat.
Proof.
  intros Hr E Hc Hp Hq.
  destruct (tc_open_facts w k c Hr E Hc) as (T1&T2&T3&D&_&_).
  destruct (callbacks c) as [|n] eqn:Ecb; [lia|].
  unfold run, step, cancel. rewrite bind_seq, with_ctx_eq, E, Hp. cbn [fut_done].
  rewrite complete_eq, Ecb, Hq. cbn.
  rewrite bind_seq. pym. cbn.
  set (w1 := mk _ _ _ _ _).
  assert (E1 : objs w1 !! k = Some (cancel_future c))
    by (unfold w1; cbn; rewrite lookup_alter_eq, E; reflexivity).
  rewrite (cleanup_open k w1 (cancel_future c) E1 Hc). cbn.
  apply Z.eqb_neq in T1. rewrite T1. cbn.
  eexists _, _. split; [reflexivity|].
  cbn. rewrite !lookup_alter_eq, E. cbn.
  split; [reflexivity|]. split; [reflexivity|]. split; [reflexivity|].
  split; [reflexivity|]. split; [set_solver|]. split; [reflexivity|].
  rewrite count_calls_app, D. cbn. rewrite !Z.eqb_refl. reflexivity.
Qed.

(** A pending, open timer_create wait with no callback queued and no
    notification thread in flight: the timer notification with its key, the
    thread's [_closed] check and its [call_soon_threadsafe], then one loop
    run of [_resolve] resolve the future once, close the context, delete its
    timer once and remove it from [_contexts]. *)
Lemma tc_fire_then_resolve w k c :
  reachable w -> k <> 0 -> objs w !! k = Some c -> closed c = false ->
  future c = Pending -> queue w = [] -> threads w = [] ->
  exists w' c', run [Notify k; ThreadCheck 0; ThreadPost 0; LoopRun] w = (inr tt, w')
    /\ objs w' !! k = Some c'
    /\ future c' = Finished /\ resolutions c' = 1%nat
    /\ closed c' = true /\ timer_id c' = 0
    /\ (k ∉ contexts w') /\ threads w' = []
    /\ trace w' = trace w ++ [CallSoonThreadsafe; SetClosed k;
                              TimerDelete k (timer_id c); ContextsPop k]
    /\ count_calls (is_delete_of k) (trace w') = 1%nat.
Proof.
  intros Hr Hk0 E Hc Hp Hq Ht.
  destruct (tc_open_facts w k c Hr E Hc) as (T1&T2&T3&D&_&_).
  pose proof (tc_reachable_inv w Hr k) as [[_ Hk] _]. rewrite E in Hk.
  destruct Hk as (_&_&_&_&_&_&_&K8). rewrite Hp in K8.
  destruct w as [tr cs os q ts]; cbn in *. subst q ts.
  unfold run, step, timer_callback_lookup, on_timer_check, set_threads, call_soon.
  apply Z.eqb_neq in Hk0. pym. cbn. rewrite Hk0.
  case_decide; [|contradiction]. cbn.
  rewrite E, Hc. cbn.
  unfold resolve. rewrite with_ctx_eq. cbn. rewrite E, Hc, Hp. cbn.
  unfold set_result. rewrite bind_seq, with_ctx_eq. cbn. rewrite E, Hp. cbn [fut_done negb].
  rewrite complete_eq. cbn.
  set (w1 := mk _ _ _ _ _).
  assert (E1 : objs w1 !! k = Some (finish c))
    by (unfold w1; cbn; rewrite lookup_alter_eq, E; reflexivity).
  rewrite (cleanup_open k w1 (finish c) E1 Hc). cbn.
  apply Z.eqb_neq in T1. rewrite T1. cbn.
  eexists _, _. split; [reflexivity|].
  cbn. rewrite !lookup_alter_eq, E. cbn.
  split; [reflexivity|]. split; [reflexivity|]. split; [cbn; rewrite K8; reflexivity|].
  split; [reflexivity|]. split; [reflexivity|]. split; [set_solver|].
  split; [reflexivity|]. split; [rewrite <- !app_assoc; reflexivity|].
  rewrite !count_calls_app, D. cbn. rewrite !Z.eqb_refl. reflexivity.
Qed.

End TimerCreatePaths.

Lemma tc_cancel_then_cleanup_witness :
  TimerCreate.reachable tc_started
  /\ TimerCreate.objs tc_started !! 42 = Some ctx_started
  /\ TimerCreate.closed ctx_started = false
  /\ TimerCreate.future ctx_started = Pending /\ TimerCreate.queue tc_started = []
  /\ exists w' c',
    TimerCreate.run [TimerCreate.UserCancel 42; TimerCreate.LoopRun] tc_started = (inr tt, w')
    /\ TimerCreate.objs w' !! 42 = Some c'
    /\ TimerCreate.future c' = Cancelled /\ TimerCreate.closed c' = true
    /\ TimerCreate.timer_id c' = 0
    /\ (42 ∉ TimerCreate.contexts w')
    /\ TimerCreate.trace w' = TimerCreate.trace tc_started
                              ++ [SetClosed 42; TimerDelete 42 9; ContextsPop 42]
    /\ count_calls (is_delete_of 42) (TimerCreate.trace w') = 1%nat.
Proof.
  split; [apply tc_started_reachable|].
  do 4 (split; [vm_compute; reflexivity|]).
  apply (tc_cancel_then_cleanup tc_started 42 ctx_started);
    [apply tc_started_reachable|vm_compute; reflexivity..].
Defined.

Lemma tc_fire_then_resolve_witness :
  TimerCreate.reachable tc_started /\ 42 <> 0
  /\ TimerCreate.objs tc_started !! 42 = Some ctx_started
  /\ TimerCreate.closed ctx_started = false
  /\ TimerCreate.future ctx_started = Pending /\ TimerCreate.queue tc_started = []
  /\ TimerCreate.threads tc_started = []
  /\ exists w' c',
    TimerCreate.run [TimerCreate.Notify 42; TimerCreate.ThreadCheck 0;
                     TimerCreate.ThreadPost 0; TimerCreate.LoopRun] tc_started = (inr tt, w')
    /\ TimerCreate.objs w' !! 42 = Some c'
    /\ TimerCreate.future c' = Finished /\ TimerCreate.resolutions c' = 1%nat
    /\ TimerCreate.closed c' = true /\ TimerCreate.timer_id c' = 0
    /\ (42 ∉ TimerCreate.contexts w') /\ TimerCreate.threads w' = []
    /\ TimerCreate.trace w' = TimerCreate.trace tc_started
                              ++ [CallSoonThreadsafe; SetClosed 42; TimerDelete 42 9;
                                  ContextsPop 42]
    /\ count_calls (is_delete_of 42) (TimerCreate.trace w') = 1%nat.
Proof.
  split; [apply tc_started_reachable|]. split; [lia|].
  do 5 (split; [vm_compute; reflexivity|]).
  apply (tc_fire_then_resolve tc_started 42 ctx_started);
    [apply tc_started_reachable|lia|vm_compute; reflexivity..].
Defined.

(* ------------------------------------------------------------------ *)
(** ** Further properties: the Darwin waits *)

Lemma darwin_inv_start env dt src w :
  context_ptr env <> 0 ->
  Darwin.wait_until env dt Darwin.init = (inr (DispatchFuture src), w) ->
  darwin_inv src w.
Proof.
  intros Hp. unfold Darwin.wait_until, Darwin.program_timer, Darwin.set_ctx. pym.
  destruct (split_deadline (py_timestamp env dt)) as [sec ns]. cbn.
  destruct (global_queue_ret env =? 0); [discriminate|].
  destruct (dispatch_source_create_ret env =? 0) eqn:Hs; [discriminate|]. cbn.
  intros [= <- <-]. unfold darwin_inv. cbn.
  repeat split; try assumption; discriminate.
Qed.

Lemma darwin_step_inv src ev w :
  darwin_inv src w -> exists w', Darwin.step ev w = (inr tt, w') /\ darwin_inv src w'.
Proof.
  destruct w as [tr f r cb q c p scr chr]. unfold darwin_inv; cbn.
  intros (Hp & Hcb & Hr & Hch & -> & Hsc & Hrel & Hdrop & Hq). subst cb.
  apply Z.eqb_neq in Hp.
  destruct chr; [specialize (Hch eq_refl); subst scr|];
  destruct ev; unfold Darwin.step, Darwin.event_handler, Darwin.cancel_handler,
    Darwin.run_item, Darwin.context_from_ptr,
    Darwin.cancel_timer, Darwin.set_ctx, Darwin.dispatch_source_cancel,
    Darwin.call_soon, Darwin.cancel_handler, Darwin.release, Darwin.cancel,
    Darwin.run_item, Darwin.set_result, Darwin.mk; pym; cbn;
  try (destruct q as [|[|] q]; cbn);
  destruct f; cbn; try destruct scr; cbn;
  do 3 (unfold Darwin.set_ctx, Darwin.mk, Darwin.cancel_timer,
          Darwin.dispatch_source_cancel; pym; cbn; rewrite ?Hp, ?Z.eqb_refl; cbn);
  eexists; (split; [reflexivity|]); cbn;
  rewrite ?count_calls_app; cbn; rewrite ?Hsc, ?Hrel, ?Hdrop;
  (repeat split); try assumption; try discriminate; try lia;
  try (intros; left; reflexivity);
  try (intros _; right; set_solver);
  idtac.
Qed.

Lemma darwin_reachable_inv src w : darwin_reachable src w -> darwin_inv src w.
Proof.
  induction 1 as [env dt w Hp H | w ev r w' _ IH Hs].
  - eapply darwin_inv_start; eassumption.
  - destruct (darwin_step_inv src ev w IH) as (w'' & Hs' & Hi).
    rewrite Hs in Hs'. injection Hs' as _ <-. exact Hi.
Qed.

(** In every world of a Darwin wait, every event returns normally: the
    event and cancel handlers never read the context through a stale pointer
    and [_set_result] never meets a done future. *)
Lemma darwin_steps_never_raise src w :
  darwin_reachable src w -> forall ev, exists w', Darwin.step ev w = (inr tt, w').
Proof.
  intros Hr ev. destruct (darwin_step_inv src ev w (darwin_reachable_inv src w Hr))
    as (w' & E & _). eauto.
Qed.

(** In every world of a Darwin wait: [dispatch_release] and the dropping of
    the context cell happen at most once each (only the cancel handler does
    them, and libdispatch runs it once), the future is resolved at most once
    (only the loop thread sets it, after its [done()] check), a release
    happens only after cancellation was requested and the cancel handler
    ran, and until the cancel handler runs the context still holds the
    source and the cell. *)
Lemma darwin_single_release src w :
  darwin_reachable src w ->
  (count_calls is_dispatch_release (Darwin.trace w) <= 1)%nat
  /\ (count_calls is_drop_context (Darwin.trace w) <= 1)%nat
  /\ (Darwin.resolutions w <= 1)%nat
  /\ (count_calls is_dispatch_release (Darwin.trace w) = 1%nat ->
      Darwin.src_cancel_requested w = true /\ Darwin.cancel_handler_ran w = true)
  /\ (Darwin.cancel_handler_ran w = false -> darwin_held w = Some (Some src, true)).
Proof.
  intros Hr. pose proof (darwin_reachable_inv src w Hr) as Hi.
  destruct w as [tr f r cb q c p scr chr].
  unfold darwin_inv in Hi; cbn in *.
  destruct Hi as (Hp & Hcb & Hres & Hch & -> & Hsc & Hrel & Hdrop & Hq).
  unfold darwin_held; cbn.
  rewrite Hrel, Hdrop, Hres.
  destruct scr, chr, f; cbn; repeat split; try lia; try discriminate; auto.
Qed.

(** Once the future of a Darwin wait is done and the loop has run every
    ready callback, cancellation of the source has been requested; the
    cancel handler, if it has not run, then releases the source and drops
    the context cell. *)
Lemma darwin_done_requests_cancel src w :
  darwin_reachable src w -> fut_done (Darwin.fut w) = true -> Darwin.queue w = [] ->
  Darwin.src_cancel_requested w = true
  /\ (Darwin.cancel_handler_ran w = false ->
      exists w', Darwin.step Darwin.NativeCancel w = (inr tt, w')
        /\ Darwin.trace w' = Darwin.trace w ++ [DispatchRelease src; DropContext (Darwin.ptr w)]
        /\ darwin_held w' = Some (None, false)).
Proof.
  intros Hr Hd Hq0. pose proof (darwin_reachable_inv src w Hr) as Hi.
  destruct w as [tr f r cb q c p scr chr].
  unfold darwin_inv in Hi; cbn in *. subst q.
  destruct Hi as (Hp & Hcb & Hres & Hch & -> & Hsc & Hrel & Hdrop & Hq).
  destruct (Hq Hd) as [->|Hin]; [|apply not_elem_of_nil in Hin; contradiction].
  split; [reflexivity|]. intros ->.
  apply Z.eqb_neq in Hp.
  unfold Darwin.step, Darwin.cancel_handler, Darwin.context_from_ptr,
    Darwin.release, Darwin.set_ctx, Darwin.mk. pym. cbn.
  rewrite Hp, Z.eqb_refl. cbn.
  eexists. split; [reflexivity|]. cbn. split; [|reflexivity].
  rewrite <- app_assoc. reflexivity.
Qed.

Lemma darwin_reachable_next src ev w :
  darwin_reachable src w -> darwin_reachable src (snd (Darwin.step ev w)).
Proof.
  intros H. apply (dreach_step src w ev (fst (Darwin.step ev w))); [exact H|].
  apply surjective_pairing.
Qed.

Lemma darwin_armed_reachable : darwin_reachable 3 darwin_armed.
Proof.
  apply (dreach_start 3 env_ok naive_dt); [discriminate|vm_compute; reflexivity].
Qed.

Lemma darwin_done_requests_cancel_witness :
  darwin_reachable 3 darwin_cancel_requested
  /\ fut_done (Darwin.fut darwin_cancel_requested) = true
  /\ Darwin.queue darwin_cancel_requested = []
  /\ Darwin.src_cancel_requested darwin_cancel_requested = true
  /\ (Darwin.cancel_handler_ran darwin_cancel_requested = false ->
      exists w', Darwin.step Darwin.NativeCancel darwin_cancel_requested = (inr tt, w')
        /\ Darwin.trace w' = Darwin.trace darwin_cancel_requested
                             ++ [DispatchRelease 3; DropContext (Darwin.ptr darwin_cancel_requested)]
        /\ darwin_held w' = Some (None, false)).
Proof.
  assert (H : darwin_reachable 3 darwin_cancel_requested)
    by apply darwin_reachable_next, darwin_reachable_next, darwin_armed_reachable.
  split; [exact H|]. split; [vm_compute; reflexivity|]. split; [vm_compute; reflexivity|].
  apply darwin_done_requests_cancel; [exact H|vm_compute; reflexivity..].
Defined.

Lemma darwin_steps_never_raise_witness :
  darwin_reachable 3 darwin_armed
  /\ exists w', Darwin.step Darwin.NativeEvent darwin_armed = (inr tt, w').
Proof.
  split; [apply darwin_armed_reachable|].
  apply (darwin_steps_never_raise 3 darwin_armed darwin_armed_reachable).
Defined.

Lemma darwin_single_release_witness :
  darwin_reachable 3 darwin_released
  /\ (count_calls is_dispatch_release (Darwin.trace darwin_released) <= 1)%nat
  /\ (count_calls is_drop_context (Darwin.trace darwin_released) <= 1)%nat
  /\ (Darwin.resolutions darwin_released <= 1)%nat
  /\ (count_calls is_dispatch_release (Darwin.trace darwin_released) = 1%nat ->
      Darwin.src_cancel_requested darwin_released = true
      /\ Darwin.cancel_handler_ran darwin_released = true)
  /\ (Darwin.cancel_handler_ran darwin_released = false ->
      darwin_held darwin_released = Some (Some 3, true)).
Proof.
  assert (H : darwin_reachable 3 darwin_released).
  { unfold darwin_released.
    apply darwin_reachable_next, darwin_reachable_next, darwin_reachable_next,
      darwin_armed_reachable. }
  split; [exact H|]. apply darwin_single_release, H.
Defined.

(* ------------------------------------------------------------------ *)
(** ** Further properties: the timer library loader *)

Lemma try_candidates_loaded cdll cs le n :
  try_candidates cdll cs le = Loaded n <->
  exists pre post, cs = pre ++ n :: post
    /\ Forall (fun x => cdll x = Some OSError) pre /\ cdll n = None.
Proof.
  revert le. induction cs as [|x cs IH]; intros le; cbn.
  - split; [destruct le; discriminate|].
    intros (pre & post & E & _). destruct pre; discriminate.
  - split.
    + destruct (cdll x) as [[]|] eqn:Ex; try discriminate.
      * intros H. apply IH in H as (pre & post & -> & F & Hn).
        exists (x :: pre), post. split; [reflexivity|]. split; [|exact Hn].
        constructor; assumption.
      * intros [= <-]. exists [], cs. split; [reflexivity|]. split; [constructor|exact Ex].
    + intros (pre & post & E & F & Hn). destruct pre as [|y pre]; cbn in E.
      * injection E as -> ->. rewrite Hn. reflexivity.
      * injection E as -> ->. inversion F as [|? ? Hy F']; subst.
        rewrite Hy. apply IH. eauto.
Qed.

Lemma try_candidates_last cdll cs last le :
  try_candidates cdll (cs ++ [last]) le <> LoadFallbackError
  /\ (forall c, try_candidates cdll (cs ++ [last]) le = LoadRaised OSError c ->
      c = last /\ Forall (fun x => cdll x = Some OSError) (cs ++ [last])).
Proof.
  revert le. induction cs as [|x cs IH]; intros le; cbn.
  - destruct (cdll last) as [[]|] eqn:E; cbn;
      (split; [discriminate|]); intros c H; try discriminate;
      injection H as <-; split; auto.
  - destruct (cdll x) as [[]|] eqn:E; cbn;
      try (split; [discriminate|]; intros c H; injection H as H; discriminate).
    + destruct (IH (Some x)) as [I1 I2]. split; [exact I1|].
      intros c H. destruct (I2 c H) as [-> F]. split; [reflexivity|].
      constructor; assumption.
    + split; [discriminate|]. intros c H. discriminate.
Qed.

(** [_load_timer_library] returns the library of the first candidate, in
    order, that [ctypes.CDLL] loads, every earlier candidate having raised
    [OSError]. *)
Lemma load_timer_library_first_loadable find_library cdll n :
  load_timer_library find_library cdll = Loaded n <->
  exists pre post, timer_library_candidates find_library = pre ++ n :: post
    /\ Forall (fun x => cdll x = Some OSError) pre /\ cdll n = None.
Proof. apply try_candidates_loaded. Qed.

(** [_load_timer_library] never reaches its final
    [OSError("Failed to locate ...")]: when it raises an [OSError] from the
    loop, every candidate failed with [OSError] and the error raised is the
    one of the last candidate, "libc.so.6". *)
Lemma load_timer_library_last_error find_library cdll :
  load_timer_library find_library cdll <> LoadFallbackError
  /\ (forall c, load_timer_library find_library cdll = LoadRaised OSError c ->
      c = "libc.so.6"%string
      /\ Forall (fun x => cdll x = Some OSError) (timer_library_candidates find_library)).
Proof.
  unfold load_timer_library.
  assert (E : timer_library_candidates find_library
              = (flat_map (fun library => match find_library library with
                           | Some name => if String.eqb name "" then [] else [name]
                           | None => []
                           end) ["rt"; "c"]%string ++ ["librt.so.1"; "librt.so"]%string)
                ++ ["libc.so.6"%string])
    by (unfold timer_library_candidates; rewrite <- app_assoc; reflexivity).
  rewrite E. apply try_candidates_last.
Qed.

Lemma load_timer_library_last_error_witness :
  load_timer_library (fun _ => None) (fun _ => Some OSError)
  = LoadRaised OSError "libc.so.6"%string
  /\ "libc.so.6"%string = "libc.so.6"%string
  /\ Forall (fun x => Some OSError = Some OSError)
            (timer_library_candidates (fun _ => None)).
Proof.
  split; [reflexivity|].
  apply (proj2 (load_timer_library_last_error (fun _ => None) (fun _ => Some OSError))).
  reflexivity.
Defined.
